(** * droid2api: request shaping and response relay of the gateway routes

    A shallow embedding of [routes.js] and [transformers/request-common.js].
    JSON bodies are JavaScript values; objects keep their keys in enumeration
    order, because the outbound body is [JSON.stringify] of the object the
    handler builds.  Exceptions are explicit results, and a handler is a
    computation over a trace of the outside calls it makes (credential
    resolution and the upstream fetch) that ends in the reply written to the
    client. *)

From Stdlib Require Import ZArith String Ascii List Bool Lia DecimalString.
From stdpp Require Import base option list strings gmap.

Open Scope string_scope.
Open Scope Z_scope.

(** ** JavaScript values and the primitives the sources use *)

Module JS.

(** JSON numbers are restricted to integers: the numbers this code computes
    with are HTTP status codes, millisecond clocks and token counters. *)
#[warnings="-register-all"]
Inductive value : Type :=
  | VUndefined
  | VNull
  | VBool (b : bool)
  | VNum (n : Z)
  | VStr (s : string)
  | VArr (items : list value)
  | VObj (props : list (string * value)).

Inductive exn : Type :=
  | TypeError (message : string)
  | Error (message : string).

Definition exn_message (e : exn) : string :=
  match e with TypeError m | Error m => m end.

Inductive result (A : Type) : Type :=
  | Ok (a : A)
  | Throw (e : exn).
Arguments Ok {A} a.
Arguments Throw {A} e.

#[global] Instance result_ret : MRet result := fun A a => Ok a.
#[global] Instance result_bind : MBind result := fun A B f m =>
  match m with Ok a => f a | Throw e => Throw e end.

Definition string_of_Z (n : Z) : string := NilZero.string_of_int (Z.to_int n).
Definition string_of_nat (n : nat) : string := string_of_Z (Z.of_nat n).

(** [Boolean(v)] *)
Definition truthy (v : value) : bool :=
  match v with
  | VUndefined | VNull => false
  | VBool b => b
  | VNum n => negb (n =? 0)
  | VStr s => negb (String.eqb s "")
  | VArr _ | VObj _ => true
  end.

(** [v === undefined || v === null] *)
Definition nullish (v : value) : bool :=
  match v with VUndefined | VNull => true | _ => false end.

(** [a || b] and [a ?? b] *)
Definition or_else (a b : value) : value := if truthy a then a else b.
Definition coalesce (a b : value) : value := if nullish a then b else a.

(** [v === 'lit'] and [v === true] *)
Definition strictEqStr (v : value) (lit : string) : bool :=
  match v with VStr s => String.eqb s lit | _ => false end.
Definition strictEqTrue (v : value) : bool :=
  match v with VBool true => true | _ => false end.

(** [typeof v === 'object'] *)
Definition typeofObject (v : value) : bool :=
  match v with VNull | VArr _ | VObj _ => true | _ => false end.

(** [[...lits].includes(v)] for an array literal of strings *)
Definition includesStr (lits : list string) (v : value) : bool :=
  existsb (strictEqStr v) lits.

(** [String(v)], as template literals and [+] on strings apply it *)
Fixpoint toString (v : value) : string :=
  match v with
  | VUndefined => "undefined"
  | VNull => "null"
  | VBool true => "true"
  | VBool false => "false"
  | VNum n => string_of_Z n
  | VStr s => s
  | VArr items =>
      String.concat ","
        (map (fun x => if nullish x then "" else toString x) items)
  | VObj _ => "[object Object]"
  end.

(** [items.join(sep)] *)
Definition Array_join (sep : string) (items : list value) : string :=
  String.concat sep (map (fun x => if nullish x then "" else toString x) items).

(** Own properties, in enumeration order. *)
Fixpoint lookupProp (ps : list (string * value)) (k : string) : option value :=
  match ps with
  | [] => None
  | (k', v) :: rest => if String.eqb k' k then Some v else lookupProp rest k
  end.

(** [obj[k] = v]: an existing key keeps its place, a new key goes last. *)
Fixpoint setProp (ps : list (string * value)) (k : string) (v : value)
  : list (string * value) :=
  match ps with
  | [] => [(k, v)]
  | (k', v') :: rest =>
      if String.eqb k' k then (k, v) :: rest else (k', v') :: setProp rest k v
  end.

(** [delete obj[k]] *)
Fixpoint deleteProp (ps : list (string * value)) (k : string)
  : list (string * value) :=
  match ps with
  | [] => []
  | (k', v') :: rest =>
      if String.eqb k' k then deleteProp rest k else (k', v') :: deleteProp rest k
  end.

Definition hasOwn (ps : list (string * value)) (k : string) : bool :=
  match lookupProp ps k with Some _ => true | None => false end.

(** [obj.k] on an object given by its properties *)
Definition field (ps : list (string * value)) (k : string) : value :=
  default VUndefined (lookupProp ps k).

(** [v.k] on a receiver that is neither null nor undefined.  None of the
    property names read by this code is a built-in property of arrays,
    strings, numbers or booleans, so only objects answer. *)
Definition prop (v : value) (k : string) : value :=
  match v with
  | VObj ps => field ps k
  | _ => VUndefined
  end.

(** [v.k] *)
Definition getProp (v : value) (k : string) : result value :=
  if nullish v
  then Throw (TypeError ("Cannot read properties of " ++ toString v
                           ++ " (reading '" ++ k ++ "')"))
  else Ok (prop v k).

(** [v?.k] *)
Definition optProp (v : value) (k : string) : value :=
  if nullish v then VUndefined else prop v k.

Fixpoint enumerate (i : nat) (items : list value) : list (string * value) :=
  match items with
  | [] => []
  | x :: rest => (string_of_nat i, x) :: enumerate (S i) rest
  end.

Definition chars (s : string) : list value :=
  map (fun c => VStr (String c EmptyString)) (list_ascii_of_string s).

(** [{...v}]: the own enumerable properties of [v]. *)
Definition spread (v : value) : list (string * value) :=
  match v with
  | VObj ps => ps
  | VArr items => enumerate 0 items
  | VStr s => enumerate 0 (chars s)
  | _ => []
  end.

(** [[...v]] *)
Definition spreadIterable (v : value) : result (list value) :=
  match v with
  | VArr items => Ok items
  | VStr s => Ok (chars s)
  | _ => Throw (TypeError (toString v ++ " is not iterable"))
  end.

(** The receiver of an array method call: anything else has no such method. *)
Definition asArray (callee : string) (v : value) : result (list value) :=
  match v with
  | VArr items => Ok items
  | _ => Throw (TypeError (callee ++ " is not a function"))
  end.

(** Array methods with a callback that may throw. *)
Fixpoint Array_some (f : value -> result bool) (items : list value)
  : result bool :=
  match items with
  | [] => Ok false
  | x :: rest => b ← f x; if b : bool then Ok true else Array_some f rest
  end.

Fixpoint Array_find (f : value -> result bool) (items : list value)
  : result value :=
  match items with
  | [] => Ok VUndefined
  | x :: rest => b ← f x; if b : bool then Ok x else Array_find f rest
  end.

Fixpoint findIndex_from (f : value -> result bool) (i : Z) (items : list value)
  : result Z :=
  match items with
  | [] => Ok (-1)
  | x :: rest => b ← f x; if b : bool then Ok i else findIndex_from f (i + 1) rest
  end.
Definition Array_findIndex f items := findIndex_from f 0 items.

Fixpoint Array_filter (f : value -> result bool) (items : list value)
  : result (list value) :=
  match items with
  | [] => Ok []
  | x :: rest =>
      b ← f x; keep ← Array_filter f rest;
      Ok (if b : bool then x :: keep else keep)
  end.

Fixpoint map_from (f : value -> Z -> result value) (i : Z) (items : list value)
  : result (list value) :=
  match items with
  | [] => Ok []
  | x :: rest => y ← f x i; ys ← map_from f (i + 1) rest; Ok (y :: ys)
  end.
Definition Array_map f items := map_from f 0 items.

(** [s.replace(/^resp_/, rep)] as [stripPrefix], and [s.replace(pat, rep)]
    with a string pattern (first occurrence only). *)
Fixpoint stripPrefix (pre s : string) : option string :=
  match pre, s with
  | EmptyString, _ => Some s
  | String a pre', String b s' =>
      if Ascii.eqb a b then stripPrefix pre' s' else None
  | String _ _, EmptyString => None
  end.

Definition replacePrefix (pre rep s : string) : string :=
  match stripPrefix pre s with Some rest => rep ++ rest | None => s end.

Fixpoint replaceFirst (pat rep s : string) : string :=
  match stripPrefix pat s with
  | Some rest => rep ++ rest
  | None =>
      match s with
      | EmptyString => EmptyString
      | String c s' => String c (replaceFirst pat rep s')
      end
  end.

(** [s.includes(sub)] *)
Fixpoint includesSub (sub s : string) : bool :=
  match stripPrefix sub s with
  | Some _ => true
  | None =>
      match s with
      | EmptyString => false
      | String _ s' => includesSub sub s'
      end
  end.

End JS.
Export JS.

(** ** The collaborators outside the sources at hand *)

(** [config.js]: the model registry and the configured prompt.  The system
    prompt is a string, empty when none is configured. *)
Record Config : Type := {
  getRedirectedModelId : value -> value;
  getModelById : value -> value;
  getEndpointByType : value -> value;
  getSystemPrompt : string;
  getModelReasoning : value -> value;
  getModelProvider : value -> value;
  getUserAgent : string;
}.

(** ** transformers/request-common.js *)

Module Common.

Definition isSystem (m : value) : result bool :=
  role ← getProp m "role"; Ok (strictEqStr role "system").

Definition typeofString (v : value) : bool :=
  match v with VStr _ => true | _ => false end.

(** The callback of [commonRequest.messages.map]: [items] is the array being
    mapped, which the callback searches again for its first system message. *)
Definition visit (systemPrompt : string) (items : list value) (msg : value)
    (index : Z) : result value :=
  role ← getProp msg "role";
  if strictEqStr role "system" then
    first ← Array_findIndex isSystem items;
    if index =? first then
      content ← getProp msg "content";
      Ok (VObj [("role", VStr "system");
                ("content",
                 VStr (systemPrompt ++
                       (if typeofString content
                        then toString content else "")))])
    else Ok msg
  else Ok msg.

Definition transformToCommon (cfg : Config) (openaiRequest : value)
  : result value :=
  let commonRequest := spread openaiRequest in
  let systemPrompt := getSystemPrompt cfg in
  commonRequest ←
    (if truthy (VStr systemPrompt) then
       let messages := field commonRequest "messages" in
       hasSystemMessage ←
         (if nullish messages then Ok false
          else items ← asArray "commonRequest.messages?.some" messages;
               Array_some isSystem items);
       if hasSystemMessage : bool then
         items ← asArray "commonRequest.messages.map" messages;
         mapped ← Array_map (visit systemPrompt items) items;
         Ok (setProp commonRequest "messages" (VArr mapped))
       else
         rest ← spreadIterable (or_else messages (VArr []));
         Ok (setProp commonRequest "messages"
               (VArr (VObj [("role", VStr "system");
                            ("content", VStr systemPrompt)] :: rest)))
     else Ok commonRequest);
  model ← getProp openaiRequest "model";
  let reasoningLevel := getModelReasoning cfg model in
  Ok (VObj
        (if strictEqStr reasoningLevel "auto" then commonRequest
         else if truthy reasoningLevel
                 && includesStr ["low"; "medium"; "high"] reasoningLevel
         then setProp commonRequest "reasoning_effort" reasoningLevel
         else deleteProp commonRequest "reasoning_effort")).

(** [v.toString(16)] for [0 <= v < 16] *)
Definition hexDigit (v : Z) : ascii :=
  nth (Z.to_nat v) (list_ascii_of_string "0123456789abcdef") "0"%char.

(** [generateUUID]: every [x] or [y] of the template consumes one draw
    [r = Math.random() * 16 | 0]. *)
Fixpoint fillTemplate (template : string) (draws : list Z) : string :=
  match template with
  | EmptyString => EmptyString
  | String c rest =>
      if Ascii.eqb c "x" || Ascii.eqb c "y" then
        let r := hd 0 draws in
        let v := if Ascii.eqb c "x" then r else Z.lor (Z.land r 3) 8 in
        String (hexDigit v) (fillTemplate rest (tl draws))
      else String c (fillTemplate rest draws)
  end.

Definition generateUUID (draws : list Z) : string :=
  fillTemplate "xxxxxxxx-xxxx-4xxx-yxxx-xxxxxxxxxxxx" draws.

Definition header (clientHeaders : gmap string string) (name : string)
  : value :=
  match clientHeaders !! name with Some s => VStr s | None => VUndefined end.

Definition stainlessDefaults : list (string * value) :=
  [("x-stainless-arch", VStr "x64");
   ("x-stainless-lang", VStr "js");
   ("x-stainless-os", VStr "MacOS");
   ("x-stainless-runtime", VStr "node");
   ("x-stainless-retry-count", VStr "0");
   ("x-stainless-package-version", VStr "5.23.2");
   ("x-stainless-runtime-version", VStr "v24.3.0")].

(** [sessionDraws] and [messageDraws] are the random draws the two calls of
    [generateUUID] would consume; a call is made only when the client sent
    no id of its own.  An [undefined] provider takes the default. *)
Definition getCommonHeaders (cfg : Config) (sessionDraws messageDraws : list Z)
    (authHeader : value) (clientHeaders : gmap string string)
    (provider : value) : value :=
  let provider :=
    match provider with VUndefined => VStr "baseten" | _ => provider end in
  let sessionId :=
    or_else (header clientHeaders "x-session-id")
            (VStr (generateUUID sessionDraws)) in
  let messageId :=
    or_else (header clientHeaders "x-assistant-message-id")
            (VStr (generateUUID messageDraws)) in
  let headers :=
    [("accept", VStr "application/json");
     ("content-type", VStr "application/json");
     ("authorization", or_else authHeader (VStr ""));
     ("x-api-provider", provider);
     ("x-factory-client", VStr "cli");
     ("x-session-id", sessionId);
     ("x-assistant-message-id", messageId);
     ("user-agent", VStr (getUserAgent cfg));
     ("connection", VStr "keep-alive")] in
  VObj (fold_left
          (fun headers d =>
             setProp headers (fst d)
               (or_else (header clientHeaders (fst d)) (snd d)))
          stainlessDefaults headers).

End Common.

(** ** routes.js *)

Module Routes.

(** *** What a handler sees and what it asks of the outside *)

Record Request : Type := {
  req_body : value;
  req_headers : gmap string string;
}.

(** [req.headers[name]] *)
Definition header (req : Request) (name : string) : value :=
  match req_headers req !! name with Some s => VStr s | None => VUndefined end.

(** The options object handed to [fetch].  [fo_body] is the object whose
    [JSON.stringify] is the outbound body. *)
Record FetchOptions : Type := {
  fo_method : string;
  fo_headers : value;
  fo_body : value;
  fo_agent : option value;
}.

(** An upstream response: its status, what [text()] and [json()] resolve to,
    and the chunks its body stream yields before it ends or fails. *)
Record Response : Type := {
  status : Z;
  text : result string;
  json : result value;
  body : list string;
}.

Definition ok (response : Response) : bool :=
  (200 <=? status response) && (status response <? 300).

(** [auth.js], [proxy-manager.js], [node-fetch], the Anthropic and OpenAI
    transformers, and the clock.  [clock] lists the successive readings of
    [Date.now()]. *)
Record World : Type := {
  getApiKey : value -> result value;
  getNextProxyAgent : value -> value;
  fetch : value -> FetchOptions -> result Response;
  transformToAnthropic : value -> result value;
  getAnthropicHeaders :
    value -> gmap string string -> bool -> value -> value -> value;
  transformToOpenAI : value -> result value;
  getOpenAIHeaders : value -> gmap string string -> value -> value;
  anthropicTransformStream : value -> string -> list string -> list string;
  openaiTransformStream : value -> string -> list string -> list string;
  clock : list Z;
  sessionDraws : list Z;
  messageDraws : list Z;
}.

Inductive call : Type :=
  | CallGetApiKey (clientAuth : value)
  | CallFetch (url : value) (options : FetchOptions).

(** What the client receives: one JSON document with a status
    ([res.status(s).json(payload)], status 200 when none is set), or an
    event stream of the chunks written before [res.end()]. *)
Inductive reply : Type :=
  | ReplyJson (code : Z) (payload : value)
  | ReplyStream (headers : list (string * string)) (chunks : list string).

Definition sseHeaders : list (string * string) :=
  [("Content-Type", "text/event-stream");
   ("Cache-Control", "no-cache");
   ("Connection", "keep-alive")].

(** *** The handler monad: a trace of outside calls, early [return], [throw] *)

Inductive outcome (A : Type) : Type :=
  | Value (a : A)
  | Return (r : reply)
  | Raise (e : exn).
Arguments Value {A} a.
Arguments Return {A} r.
Arguments Raise {A} e.

Definition handler (A : Type) : Type := list call -> outcome A * list call.

#[global] Instance handler_ret : MRet handler := fun A a trace => (Value a, trace).
#[global] Instance handler_bind : MBind handler := fun A B f m trace =>
  match m trace with
  | (Value a, trace') => f a trace'
  | (Return r, trace') => (Return r, trace')
  | (Raise e, trace') => (Raise e, trace')
  end.

Definition lift {A} (r : result A) : handler A := fun trace =>
  match r with Ok a => (Value a, trace) | Throw e => (Raise e, trace) end.

(** [return res.status(code).json(payload)] *)
Definition respond {A} (code : Z) (payload : value) : handler A :=
  fun trace => (Return (ReplyJson code payload), trace).

Definition perform {A} (c : call) (r : result A) : handler A := fun trace =>
  match r with
  | Ok a => (Value a, (trace ++ [c])%list)
  | Throw e => (Raise e, (trace ++ [c])%list)
  end.

(** [try { m } catch (error) { h error }] *)
Definition try_catch {A} (m : handler A) (h : exn -> handler A) : handler A :=
  fun trace =>
    match m trace with
    | (Raise e, trace') => h e trace'
    | other => other
    end.

(** The outermost [try] of every handler. *)
Definition run (m : handler reply) : reply * list call :=
  match m [] with
  | (Value r, trace) => (r, trace)
  | (Return r, trace) => (r, trace)
  | (Raise e, trace) =>
      (ReplyJson 500 (VObj [("error", VStr "Internal server error");
                            ("message", VStr (exn_message e))]), trace)
  end.

(** *** convertResponseToChatCompletion *)

Definition typeIs (lit : string) (o : value) : result bool :=
  type ← getProp o "type"; Ok (strictEqStr type lit).

Definition convertResponseToChatCompletion (clock : list Z) (resp : value)
  : result value :=
  if negb (truthy resp) || negb (typeofObject resp)
  then Throw (Error "Invalid response object")
  else
    output ← asArray "(resp.output || []).find"
               (or_else (prop resp "output") (VArr []));
    outputMsg ← Array_find (typeIs "message") output;
    textBlocks ←
      (if nullish (optProp outputMsg "content") then Ok []
       else parts ← asArray "outputMsg?.content?.filter"
                      (optProp outputMsg "content");
            found ← Array_filter (typeIs "output_text") parts;
            Ok found);
    texts ← Array_map (fun c _ => getProp c "text") textBlocks;
    let content := Array_join "" texts in
    id_clock ←
      (if truthy (prop resp "id") then
         match prop resp "id" with
         | VStr s => Ok (VStr (replacePrefix "resp_" "chatcmpl-" s), clock)
         | _ => Throw (TypeError "resp.id.replace is not a function")
         end
       else Ok (VStr ("chatcmpl-" ++ string_of_Z (hd 0 clock)), tl clock));
    let '(id, clock) := id_clock in
    Ok (VObj
          [("id", id);
           ("object", VStr "chat.completion");
           ("created",
            or_else (prop resp "created_at") (VNum (hd 0 clock / 1000)));
           ("model", or_else (prop resp "model") (VStr "unknown-model"));
           ("choices",
            VArr
              [VObj
                 [("index", VNum 0);
                  ("message",
                   VObj [("role",
                          or_else (optProp outputMsg "role") (VStr "assistant"));
                         ("content", or_else (VStr content) (VStr ""))]);
                  ("finish_reason",
                   if strictEqStr (prop resp "status") "completed"
                   then VStr "stop" else VStr "unknown")]]);
           ("usage",
            VObj
              [("prompt_tokens",
                coalesce (optProp (prop resp "usage") "input_tokens") (VNum 0));
               ("completion_tokens",
                coalesce (optProp (prop resp "usage") "output_tokens") (VNum 0));
               ("total_tokens",
                coalesce (optProp (prop resp "usage") "total_tokens") (VNum 0))])]).

(** *** POST /v1/chat/completions *)

Definition apiKeyUnavailable : value :=
  VObj [("error", VStr "API key not available");
        ("message",
         VStr "Failed to get or refresh API key. Please check server logs.")].

Definition endpointError (response : Response) (errorText : string) : value :=
  VObj [("error", VStr ("Endpoint returned " ++ string_of_Z (status response)));
        ("details", VStr errorText)].

Definition handleChatCompletions (cfg : Config) (w : World) (req : Request)
  : handler reply :=
  let openaiRequest := req_body req in
  requested ← lift (getProp openaiRequest "model");
  let modelId := getRedirectedModelId cfg requested in
  if negb (truthy modelId) then
    respond 400 (VObj [("error", VStr "model is required")])
  else
  let model := getModelById cfg modelId in
  if negb (truthy model) then
    respond 404
      (VObj [("error", VStr ("Model " ++ toString modelId ++ " not found"))])
  else
  let endpoint := getEndpointByType cfg (prop model "type") in
  if negb (truthy endpoint) then
    respond 500
      (VObj [("error",
              VStr ("Endpoint type " ++ toString (prop model "type")
                      ++ " not found"))])
  else
  authHeader ←
    try_catch
      (perform (CallGetApiKey (header req "authorization"))
               (getApiKey w (header req "authorization")))
      (fun _ => respond 500 apiKeyUnavailable);
  let clientHeaders := req_headers req in
  let requestWithRedirectedModel :=
    VObj (setProp (spread openaiRequest) "model" modelId) in
  let provider := getModelProvider cfg modelId in
  transformed ←
    (if strictEqStr (prop model "type") "anthropic" then
       transformedRequest ←
         lift (transformToAnthropic w requestWithRedirectedModel);
       let isStreaming := strictEqTrue (prop openaiRequest "stream") in
       mret (transformedRequest,
             getAnthropicHeaders w authHeader clientHeaders isStreaming
               modelId provider)
     else if strictEqStr (prop model "type") "openai" then
       transformedRequest ←
         lift (transformToOpenAI w requestWithRedirectedModel);
       mret (transformedRequest,
             getOpenAIHeaders w authHeader clientHeaders provider)
     else if strictEqStr (prop model "type") "common" then
       transformedRequest ←
         lift (Common.transformToCommon cfg requestWithRedirectedModel);
       mret (transformedRequest,
             Common.getCommonHeaders cfg (sessionDraws w) (messageDraws w)
               authHeader clientHeaders provider)
     else
       respond 500
         (VObj [("error",
                 VStr ("Unknown endpoint type: "
                         ++ toString (prop model "type")))]));
  let '(transformedRequest, headers) := transformed in
  let proxyAgentInfo := getNextProxyAgent w (prop endpoint "base_url") in
  let fetchOptions :=
    {| fo_method := "POST";
       fo_headers := headers;
       fo_body := transformedRequest;
       fo_agent := if truthy (optProp proxyAgentInfo "agent")
                   then Some (optProp proxyAgentInfo "agent") else None |} in
  response ←
    perform (CallFetch (prop endpoint "base_url") fetchOptions)
            (fetch w (prop endpoint "base_url") fetchOptions);
  if negb (ok response) then
    errorText ← lift (text response);
    respond (status response) (endpointError response errorText)
  else
  stream ← lift (getProp transformedRequest "stream");
  let isStreaming := strictEqTrue stream in
  if isStreaming then
    if strictEqStr (prop model "type") "common" then
      mret (ReplyStream sseHeaders (body response))
    else if strictEqStr (prop model "type") "anthropic" then
      mret (ReplyStream sseHeaders
              (anthropicTransformStream w modelId
                 ("chatcmpl-" ++ string_of_Z (hd 0 (clock w)))
                 (body response)))
    else if strictEqStr (prop model "type") "openai" then
      mret (ReplyStream sseHeaders
              (openaiTransformStream w modelId
                 ("chatcmpl-" ++ string_of_Z (hd 0 (clock w)))
                 (body response)))
    else mret (ReplyStream sseHeaders [])
  else
    data ← lift (json response);
    if strictEqStr (prop model "type") "openai" then
      match convertResponseToChatCompletion (clock w) data with
      | Ok converted => mret (ReplyJson 200 converted)
      | Throw _ => mret (ReplyJson 200 data)
      end
    else mret (ReplyJson 200 data).

(** *** POST /v1/responses *)

Module DirectResponses.

(** The body [handleDirectResponses] forwards. *)
Definition modifiedRequest (cfg : Config) (openaiRequest modelId : value)
  : list (string * value) :=
  let systemPrompt := getSystemPrompt cfg in
  let modifiedRequest := setProp (spread openaiRequest) "model" modelId in
  let modifiedRequest :=
    if truthy (VStr systemPrompt) then
      if truthy (field modifiedRequest "instructions") then
        setProp modifiedRequest "instructions"
          (VStr (systemPrompt
                   ++ toString (field modifiedRequest "instructions")))
      else setProp modifiedRequest "instructions" (VStr systemPrompt)
    else modifiedRequest in
  let reasoningLevel := getModelReasoning cfg modelId in
  if strictEqStr reasoningLevel "auto" then modifiedRequest
  else if truthy reasoningLevel
          && includesStr ["low"; "medium"; "high"] reasoningLevel
  then setProp modifiedRequest "reasoning"
         (VObj [("effort", reasoningLevel); ("summary", VStr "auto")])
  else deleteProp modifiedRequest "reasoning".

End DirectResponses.

Definition invalidEndpointType (route only : string) (modelId model : value)
  : value :=
  VObj [("error", VStr "Invalid endpoint type");
        ("message",
         VStr (route ++ " endpoint only supports " ++ only
                 ++ " type endpoints, current model " ++ toString modelId
                 ++ " is " ++ toString (prop model "type") ++ " type"))].

Definition handleDirectResponses (cfg : Config) (w : World) (req : Request)
  : handler reply :=
  let openaiRequest := req_body req in
  requested ← lift (getProp openaiRequest "model");
  let modelId := getRedirectedModelId cfg requested in
  if negb (truthy modelId) then
    respond 400 (VObj [("error", VStr "model is required")])
  else
  let model := getModelById cfg modelId in
  if negb (truthy model) then
    respond 404
      (VObj [("error", VStr ("Model " ++ toString modelId ++ " not found"))])
  else
  if negb (strictEqStr (prop model "type") "openai") then
    respond 400 (invalidEndpointType "/v1/responses" "openai" modelId model)
  else
  let endpoint := getEndpointByType cfg (prop model "type") in
  if negb (truthy endpoint) then
    respond 500
      (VObj [("error",
              VStr ("Endpoint type " ++ toString (prop model "type")
                      ++ " not found"))])
  else
  let clientAuthFromXApiKey :=
    if truthy (header req "x-api-key")
    then VStr ("Bearer " ++ toString (header req "x-api-key")) else VNull in
  authHeader ←
    try_catch
      (perform
         (CallGetApiKey
            (or_else (header req "authorization") clientAuthFromXApiKey))
         (getApiKey w
            (or_else (header req "authorization") clientAuthFromXApiKey)))
      (fun _ => respond 500 apiKeyUnavailable);
  let clientHeaders := req_headers req in
  let provider := getModelProvider cfg modelId in
  let headers := getOpenAIHeaders w authHeader clientHeaders provider in
  let modifiedRequest :=
    VObj (DirectResponses.modifiedRequest cfg openaiRequest modelId) in
  let proxyAgentInfo := getNextProxyAgent w (prop endpoint "base_url") in
  let fetchOptions :=
    {| fo_method := "POST";
       fo_headers := headers;
       fo_body := modifiedRequest;
       fo_agent := if truthy (optProp proxyAgentInfo "agent")
                   then Some (optProp proxyAgentInfo "agent") else None |} in
  response ←
    perform (CallFetch (prop endpoint "base_url") fetchOptions)
            (fetch w (prop endpoint "base_url") fetchOptions);
  if negb (ok response) then
    errorText ← lift (text response);
    respond (status response) (endpointError response errorText)
  else
  let isStreaming := strictEqTrue (prop openaiRequest "stream") in
  if isStreaming then mret (ReplyStream sseHeaders (body response))
  else data ← lift (json response); mret (ReplyJson 200 data).

(** *** POST /v1/messages *)

Module DirectMessages.

Definition budgetTokens : list (string * value) :=
  [("low", VNum 4096); ("medium", VNum 12288); ("high", VNum 24576)].

Definition isArray (v : value) : bool :=
  match v with VArr _ => true | _ => false end.

(** The body [handleDirectMessages] forwards. *)
Definition modifiedRequest (cfg : Config) (anthropicRequest modelId : value)
  : list (string * value) :=
  let systemPrompt := getSystemPrompt cfg in
  let modifiedRequest := setProp (spread anthropicRequest) "model" modelId in
  let modifiedRequest :=
    if truthy (VStr systemPrompt) then
      if truthy (field modifiedRequest "system")
         && isArray (field modifiedRequest "system")
      then
        match field modifiedRequest "system" with
        | VArr blocks =>
            setProp modifiedRequest "system"
              (VArr (VObj [("type", VStr "text"); ("text", VStr systemPrompt)]
                       :: blocks))
        | _ => modifiedRequest
        end
      else
        setProp modifiedRequest "system"
          (VArr [VObj [("type", VStr "text"); ("text", VStr systemPrompt)]])
    else modifiedRequest in
  let reasoningLevel := getModelReasoning cfg modelId in
  if strictEqStr reasoningLevel "auto" then modifiedRequest
  else if truthy reasoningLevel
          && includesStr ["low"; "medium"; "high"] reasoningLevel
  then setProp modifiedRequest "thinking"
         (VObj [("type", VStr "enabled");
                ("budget_tokens", field budgetTokens (toString reasoningLevel))])
  else deleteProp modifiedRequest "thinking".

End DirectMessages.

Definition handleDirectMessages (cfg : Config) (w : World) (req : Request)
  : handler reply :=
  let anthropicRequest := req_body req in
  requested ← lift (getProp anthropicRequest "model");
  let modelId := getRedirectedModelId cfg requested in
  if negb (truthy modelId) then
    respond 400 (VObj [("error", VStr "model is required")])
  else
  let model := getModelById cfg modelId in
  if negb (truthy model) then
    respond 404
      (VObj [("error", VStr ("Model " ++ toString modelId ++ " not found"))])
  else
  if negb (strictEqStr (prop model "type") "anthropic") then
    respond 400 (invalidEndpointType "/v1/messages" "anthropic" modelId model)
  else
  let endpoint := getEndpointByType cfg (prop model "type") in
  if negb (truthy endpoint) then
    respond 500
      (VObj [("error",
              VStr ("Endpoint type " ++ toString (prop model "type")
                      ++ " not found"))])
  else
  let clientAuthFromXApiKey :=
    if truthy (header req "x-api-key")
    then VStr ("Bearer " ++ toString (header req "x-api-key")) else VNull in
  authHeader ←
    try_catch
      (perform
         (CallGetApiKey
            (or_else (header req "authorization") clientAuthFromXApiKey))
         (getApiKey w
            (or_else (header req "authorization") clientAuthFromXApiKey)))
      (fun _ => respond 500 apiKeyUnavailable);
  let clientHeaders := req_headers req in
  let provider := getModelProvider cfg modelId in
  let isStreaming := strictEqTrue (prop anthropicRequest "stream") in
  let headers :=
    getAnthropicHeaders w authHeader clientHeaders isStreaming modelId
      provider in
  let modifiedRequest :=
    VObj (DirectMessages.modifiedRequest cfg anthropicRequest modelId) in
  let proxyAgentInfo := getNextProxyAgent w (prop endpoint "base_url") in
  let fetchOptions :=
    {| fo_method := "POST";
       fo_headers := headers;
       fo_body := modifiedRequest;
       fo_agent := if truthy (optProp proxyAgentInfo "agent")
                   then Some (optProp proxyAgentInfo "agent") else None |} in
  response ←
    perform (CallFetch (prop endpoint "base_url") fetchOptions)
            (fetch w (prop endpoint "base_url") fetchOptions);
  if negb (ok response) then
    errorText ← lift (text response);
    respond (status response) (endpointError response errorText)
  else
  if isStreaming then mret (ReplyStream sseHeaders (body response))
  else data ← lift (json response); mret (ReplyJson 200 data).

(** *** POST /v1/messages/count_tokens *)

Definition handleCountTokens (cfg : Config) (w : World) (req : Request)
  : handler reply :=
  let anthropicRequest := req_body req in
  requested ← lift (getProp anthropicRequest "model");
  let modelId := getRedirectedModelId cfg requested in
  if negb (truthy modelId) then
    respond 400 (VObj [("error", VStr "model is required")])
  else
  let model := getModelById cfg modelId in
  if negb (truthy model) then
    respond 404
      (VObj [("error", VStr ("Model " ++ toString modelId ++ " not found"))])
  else
  if negb (strictEqStr (prop model "type") "anthropic") then
    respond 400
      (invalidEndpointType "/v1/messages/count_tokens" "anthropic" modelId
         model)
  else
  let endpoint := getEndpointByType cfg (VStr "anthropic") in
  if negb (truthy endpoint) then
    respond 500 (VObj [("error", VStr "Endpoint type anthropic not found")])
  else
  let clientAuthFromXApiKey :=
    if truthy (header req "x-api-key")
    then VStr ("Bearer " ++ toString (header req "x-api-key")) else VNull in
  authHeader ←
    try_catch
      (perform
         (CallGetApiKey
            (or_else (header req "authorization") clientAuthFromXApiKey))
         (getApiKey w
            (or_else (header req "authorization") clientAuthFromXApiKey)))
      (fun _ => respond 500 apiKeyUnavailable);
  let clientHeaders := req_headers req in
  let provider := getModelProvider cfg modelId in
  let headers :=
    getAnthropicHeaders w authHeader clientHeaders false modelId provider in
  countTokensUrl ←
    lift
      (match prop endpoint "base_url" with
       | VStr base_url =>
           Ok (VStr (replaceFirst "/v1/messages" "/v1/messages/count_tokens"
                       base_url))
       | VUndefined | VNull =>
           Throw (TypeError ("Cannot read properties of "
                               ++ toString (prop endpoint "base_url")
                               ++ " (reading 'replace')"))
       | _ => Throw (TypeError "endpoint.base_url.replace is not a function")
       end);
  let modifiedRequest :=
    VObj (setProp (spread anthropicRequest) "model" modelId) in
  let proxyAgentInfo := getNextProxyAgent w countTokensUrl in
  let fetchOptions :=
    {| fo_method := "POST";
       fo_headers := headers;
       fo_body := modifiedRequest;
       fo_agent := if truthy (optProp proxyAgentInfo "agent")
                   then Some (optProp proxyAgentInfo "agent") else None |} in
  response ←
    perform (CallFetch countTokensUrl fetchOptions)
            (fetch w countTokensUrl fetchOptions);
  if negb (ok response) then
    errorText ← lift (text response);
    respond (status response) (endpointError response errorText)
  else data ← lift (json response); mret (ReplyJson 200 data).

(** The four POST routes of the router. *)
Inductive route : Type :=
  | ChatCompletions
  | Responses
  | Messages
  | CountTokens.

Definition dispatch (r : route) : Config -> World -> Request -> handler reply :=
  match r with
  | ChatCompletions => handleChatCompletions
  | Responses => handleDirectResponses
  | Messages => handleDirectMessages
  | CountTokens => handleCountTokens
  end.

Definition serve (r : route) (cfg : Config) (w : World) (req : Request)
  : reply * list call :=
  run (dispatch r cfg w req).

End Routes.

(** ** Vocabulary of the properties *)

Module Props.
Import Routes.

(** A configured level outside auto, low, medium and high: off, or none. *)
Definition levelOff (level : value) : Prop :=
  strictEqStr level "auto" = false
  /\ includesStr ["low"; "medium"; "high"] level = false.

Definition levelFixed (level : string) : Prop :=
  level = "low" \/ level = "medium" \/ level = "high".

(** The thinking budget of the documentation's table. *)
Definition budgetOf (level : string) : Z :=
  if String.eqb level "low" then 4096
  else if String.eqb level "medium" then 12288
  else 24576.

Definition noReasoningFields (body : list (string * value)) : Prop :=
  hasOwn body "reasoning" = false
  /\ hasOwn body "thinking" = false
  /\ hasOwn body "reasoning_effort" = false.

Definition isObject (v : value) : bool :=
  match v with VObj _ => true | _ => false end.

(** A [messages] field the Common transformer can walk: absent, or an array
    without null entries. *)
Definition walkable (messages : value) : bool :=
  match messages with
  | VUndefined | VNull => true
  | VArr items => forallb (fun m => negb (nullish m)) items
  | _ => false
  end.

Definition hasRole (role : string) (m : value) : bool :=
  strictEqStr (prop m "role") role.

Definition systemMessage (content : string) : value :=
  VObj [("role", VStr "system"); ("content", VStr content)].

Definition textBlock (text : string) : value :=
  VObj [("type", VStr "text"); ("text", VStr text)].

(** The first system message takes the prompt in front of its text; a
    content that is not a string gives way to the prompt alone. *)
Definition prompted (prompt : string) (m : value) : value :=
  systemMessage
    (prompt ++ match prop m "content" with VStr s => s | _ => "" end).

Fixpoint prependToFirstSystem (prompt : string) (items : list value)
  : list value :=
  match items with
  | [] => []
  | m :: rest =>
      if hasRole "system" m then prompted prompt m :: rest
      else m :: prependToFirstSystem prompt rest
  end.

Definition injectMessages (prompt : string) (messages : value) : list value :=
  match messages with
  | VArr items =>
      if existsb (hasRole "system") items
      then prependToFirstSystem prompt items
      else systemMessage prompt :: items
  | _ => [systemMessage prompt]
  end.

(** The level policy on one field of an object. *)
Definition withLevel (k : string) (level : value) (obj : list (string * value))
  : list (string * value) :=
  if strictEqStr level "auto" then obj
  else if truthy level && includesStr ["low"; "medium"; "high"] level
  then setProp obj k level
  else deleteProp obj k.

(** The reply a handler ends with, and what holds of the outcome and trace
    of a handler started on a given trace. *)
Definition finish (o : outcome reply) : reply :=
  match o with
  | Value r | Return r => r
  | Raise e =>
      ReplyJson 500 (VObj [("error", VStr "Internal server error");
                           ("message", VStr (exn_message e))])
  end.

Definition wp {A} (m : handler A) (trace : list call)
    (Q : outcome A -> list call -> Prop) : Prop :=
  Q (fst (m trace)) (snd (m trace)).

(** The decision each route takes between the streaming and the whole-body
    path, once the upstream has answered. *)
Definition streamFlag (r : route) (req : Request) (options : FetchOptions)
  : bool :=
  match r with
  | ChatCompletions => strictEqTrue (prop (fo_body options) "stream")
  | Responses | Messages => strictEqTrue (prop (req_body req) "stream")
  | CountTokens => false
  end.

(** The model a request resolves to. *)
Definition resolvedId (cfg : Config) (req : Request) : value :=
  getRedirectedModelId cfg (prop (req_body req) "model").

Definition resolvedModel (cfg : Config) (req : Request) : value :=
  getModelById cfg (resolvedId cfg req).

(** Whether a text occurs in some string of a value. *)
Fixpoint mentions (needle : string) (v : value) : bool :=
  match v with
  | VStr s => includesSub needle s
  | VArr items => existsb (mentions needle) items
  | VObj ps => existsb (fun p => mentions needle (snd p)) ps
  | _ => false
  end.

(** The outbound bodies and the credential lookups of a trace. *)
Definition outboundBodies (trace : list call) : list value :=
  omap (fun c => match c with
                 | CallFetch _ options => Some (fo_body options)
                 | CallGetApiKey _ => None
                 end) trace.

Definition isStream (r : reply) : bool :=
  match r with ReplyStream _ _ => true | ReplyJson _ _ => false end.

(** A relay of the upstream answer as it came: same status, and a payload
    that is the upstream text or the document it parses to. *)
Definition relayedVerbatim (response : Response) (r : reply) : Prop :=
  exists payload,
    r = ReplyJson (status response) payload
    /\ (Ok (toString payload) = text response \/ Ok payload = json response).

(** *** The adapter, as the specification words it *)

Definition firstMessage (output : list value) : option value :=
  List.find (fun o => strictEqStr (prop o "type") "message") output.

Definition textParts (message : option value) : list value :=
  match message with
  | Some m =>
      match prop m "content" with
      | VArr parts =>
          List.filter (fun c => strictEqStr (prop c "type") "output_text") parts
      | _ => []
      end
  | None => []
  end.

Definition partText (part : value) : string :=
  match prop part "text" with
  | VUndefined | VNull => ""
  | t => toString t
  end.

Definition outputOf (resp : value) : list value :=
  match prop resp "output" with VArr items => items | _ => [] end.

Definition finishReason (resp : value) : string :=
  match prop resp "status" with
  | VStr s => if String.eqb s "completed" then "stop" else "unknown"
  | _ => "unknown"
  end.

Definition counter (resp : value) (name : string) : value :=
  match prop resp "usage" with
  | VUndefined | VNull => VNum 0
  | usage =>
      match prop usage name with
      | VUndefined | VNull => VNum 0
      | n => n
      end
  end.

Definition syntheticId (clock : list Z) (resp : value) : string :=
  match prop resp "id" with
  | VStr s => replacePrefix "resp_" "chatcmpl-" s
  | _ => "chatcmpl-" ++ string_of_Z (hd 0 clock)
  end.

Definition contentOk (item : value) : bool :=
  match prop item "content" with
  | VUndefined | VNull => true
  | VArr parts => forallb isObject parts
  | _ => false
  end.

(** A well-formed upstream body: an object whose [output], when there is
    one, is an array of objects, each with an array of objects (or nothing)
    as [content], and whose [id], when there is one, is a non-empty string. *)
Definition wellFormed (resp : value) : bool :=
  isObject resp
  && match prop resp "output" with
     | VUndefined | VNull => true
     | VArr items => forallb isObject items && forallb contentOk items
     | _ => false
     end
  && match prop resp "id" with
     | VUndefined | VNull => true
     | VStr s => negb (String.eqb s "")
     | _ => false
     end.

End Props.

(** ** A concrete registry and upstream, for worked examples *)

Module Demo.
Import Routes.

(** Models as [config.json] lists them: id, type, reasoning. *)
Definition models : list (string * (string * string)) :=
  [("claude-high", ("anthropic", "high"));
   ("claude-auto", ("anthropic", "auto"));
   ("claude-off", ("anthropic", "off"));
   ("gpt-medium", ("openai", "medium"));
   ("gpt-auto", ("openai", "auto"));
   ("gpt-off", ("openai", "off"));
   ("glm-low", ("common", "low"));
   ("glm-auto", ("common", "auto"));
   ("glm-off", ("common", "off"))].

Definition redirects : list (string * string) :=
  [("opus", "claude-high"); ("alias", "ghost")].

Definition assoc {A} (l : list (string * A)) (k : string) : option A :=
  snd <$> List.find (fun p => String.eqb (fst p) k) l.

Definition modelOf (id : value) : option (string * string) :=
  match id with VStr s => assoc models s | _ => None end.

Definition config (prompt : string) : Config :=
  {| getRedirectedModelId := fun id =>
       match id with
       | VStr s => match assoc redirects s with Some t => VStr t | None => id end
       | _ => id
       end;
     getModelById := fun id =>
       match id, modelOf id with
       | VStr s, Some (type, reasoning) =>
           VObj [("id", VStr s); ("type", VStr type);
                 ("reasoning", VStr reasoning)]
       | _, _ => VUndefined
       end;
     getEndpointByType := fun type =>
       match type with
       | VStr t =>
           VObj [("name", type);
                 ("base_url", VStr ("https://upstream.test/" ++ t ++ "/v1/messages"))]
       | _ => VUndefined
       end;
     getSystemPrompt := prompt;
     getModelReasoning := fun id =>
       match modelOf id with Some (_, r) => VStr r | None => VNull end;
     getModelProvider := fun _ => VStr "demo";
     getUserAgent := "demo-agent/1.0" |}.

Definition world (response : Response) : World :=
  {| getApiKey := fun clientAuth =>
       if truthy clientAuth then Ok clientAuth
       else Throw (Error "No authorization available");
     getNextProxyAgent := fun _ => VNull;
     fetch := fun _ _ => Ok response;
     transformToAnthropic := fun r => Ok r;
     getAnthropicHeaders := fun auth _ _ _ _ => VObj [("authorization", auth)];
     transformToOpenAI := fun r => Ok r;
     getOpenAIHeaders := fun auth _ _ => VObj [("authorization", auth)];
     anthropicTransformStream := fun _ _ chunks => chunks;
     openaiTransformStream := fun _ _ chunks => chunks;
     clock := [1700000000123; 1700000000456];
     sessionDraws := [];
     messageDraws := [] |}.

Definition upstream (code : Z) (raw : string) (parsed : result value)
  : Response :=
  {| status := code; text := Ok raw; json := parsed; body := [raw] |}.

Definition request (body : list (string * value))
    (headers : list (string * string)) : Request :=
  {| req_body := VObj body; req_headers := list_to_map headers |}.

Definition prompt : string := "You are Droid. ".

Definition hello : value :=
  VObj [("role", VStr "user"); ("content", VStr "Hello")].

End Demo.

(** ** routes.js: GET /v1/models *)

Module ModelList.
Import Routes.

(** One entry of the listing.  [index] picks the reading of [Date.now()]
    taken for this entry: the callback reads the clock once per model. *)
Definition entry (clock : list Z) (model : value) (index : Z) : result value :=
  id ← getProp model "id";
  type ← getProp model "type";
  Ok (VObj [("id", id);
            ("object", VStr "model");
            ("created", VNum (nth (Z.to_nat index) clock 0));
            ("owned_by", type);
            ("permission", VArr []);
            ("root", id);
            ("parent", VNull)]).

(** The handler of [GET /v1/models].  [getConfig] is what [getConfig()] of
    [config.js] returns or throws. *)
Definition listModels (getConfig : result value) (clock : list Z) : reply :=
  match
    (config ← getConfig;
     models ← getProp config "models";
     items ←
       (if nullish models
        then Throw (TypeError ("Cannot read properties of " ++ toString models
                                 ++ " (reading 'map')"))
        else asArray "config.models.map" models);
     data ← Array_map (entry clock) items;
     Ok (VObj [("object", VStr "list"); ("data", VArr data)]))
  with
  | Ok response => ReplyJson 200 response
  | Throw _ => ReplyJson 500 (VObj [("error", VStr "Internal server error")])
  end.

End ModelList.

(** ** server.js *)

Module Server.
Import Routes.

(** A request as the middleware chain sees it.  [http_body] is what the body
    parsers leave in [req.body], or the error they pass on. *)
Record HttpRequest : Type := {
  http_method : string;
  http_path : string;
  http_headers : gmap string string;
  http_body : result value;
}.

(** What the application takes from Express and its other collaborators:
    whether a route registered for a verb and a path pattern matches a
    request, the development flag and the configuration of [config.js], and
    the time stamp [new Date().toISOString()] of the 404 handler. *)
Record Express : Type := {
  matches : string -> string -> HttpRequest -> bool;
  isDevMode : bool;
  getConfig : result value;
  timestamp : string;
}.

(** What the client receives: the response headers the middleware set, and
    either a bare status ([res.sendStatus]) or the reply of a handler. *)
Inductive answer : Type :=
  | SendStatus (headers : list (string * string)) (code : Z)
  | Answer (headers : list (string * string)) (r : reply).

Definition corsHeaders : list (string * string) :=
  [("Access-Control-Allow-Origin", "*");
   ("Access-Control-Allow-Methods", "GET, POST, PUT, DELETE, OPTIONS");
   ("Access-Control-Allow-Headers",
    "Content-Type, Authorization, X-API-Key, anthropic-version")].

Definition endpoints : value :=
  VArr [VStr "GET /v1/models";
        VStr "POST /v1/chat/completions";
        VStr "POST /v1/responses";
        VStr "POST /v1/messages";
        VStr "POST /v1/messages/count_tokens"].

Definition root : reply :=
  ReplyJson 200
    (VObj [("name", VStr "droid2api");
           ("version", VStr "1.0.0");
           ("description", VStr "OpenAI Compatible API Proxy");
           ("endpoints", endpoints)]).

Definition notFound (x : Express) (req : HttpRequest) : reply :=
  ReplyJson 404
    (VObj [("error", VStr "Not Found");
           ("message",
            VStr ("Path " ++ http_method req ++ " " ++ http_path req
                    ++ " does not exist"));
           ("timestamp", VStr (timestamp x));
           ("availableEndpoints", endpoints)]).

(** The error-handling middleware.  A [message] that is [undefined] is left
    out of the serialised body. *)
Definition errorHandler (x : Express) (err : exn) : reply :=
  ReplyJson 500
    (VObj [("error", VStr "Internal server error");
           ("message",
            if isDevMode x then VStr (exn_message err) else VUndefined)]).

Definition routed (route : Routes.route) (cfg : Config) (w : World)
    (request : Request) : answer * list call :=
  (Answer corsHeaders (fst (serve route cfg w request)),
   snd (serve route cfg w request)).

(** The middleware chain, in registration order: body parsers, CORS, the
    router, the root route, the 404 handler; an error of the body parsers
    goes to the error handler past everything else. *)
Definition app (cfg : Config) (w : World) (x : Express) (req : HttpRequest)
  : answer * list call :=
  match http_body req with
  | Throw err => (Answer [] (errorHandler x err), [])
  | Ok body =>
      if String.eqb (http_method req) "OPTIONS" then
        (SendStatus corsHeaders 200, [])
      else
        let request :=
          {| req_body := body; req_headers := http_headers req |} in
        if matches x "get" "/v1/models" req then
          (Answer corsHeaders (ModelList.listModels (getConfig x) (clock w)),
           [])
        else if matches x "post" "/v1/chat/completions" req then
          routed ChatCompletions cfg w request
        else if matches x "post" "/v1/responses" req then
          routed Responses cfg w request
        else if matches x "post" "/v1/messages" req then
          routed Messages cfg w request
        else if matches x "post" "/v1/messages/count_tokens" req then
          routed CountTokens cfg w request
        else if matches x "get" "/" req then (Answer corsHeaders root, [])
        else (Answer corsHeaders (notFound x req), [])
  end.

Definition headersOf (a : answer) : list (string * string) :=
  match a with SendStatus headers _ | Answer headers _ => headers end.

End Server.

(** ** Vocabulary of the further properties *)

Module Shapes.
Import Routes Props.

(** The type a forwarding route insists on, and the name it reports. *)
Definition requiredType (r : route) : option (string * string) :=
  match r with
  | ChatCompletions => None
  | Responses => Some ("/v1/responses", "openai")
  | Messages => Some ("/v1/messages", "anthropic")
  | CountTokens => Some ("/v1/messages/count_tokens", "anthropic")
  end.

(** The outside calls of one request: none, a credential lookup, or a
    credential lookup that succeeded followed by one POST. *)
Definition disciplined (w : World) (trace : list call) : Prop :=
  trace = []
  \/ (exists clientAuth, trace = [CallGetApiKey clientAuth])
  \/ (exists clientAuth key url options,
        trace = [CallGetApiKey clientAuth; CallFetch url options]
        /\ getApiKey w clientAuth = Ok key
        /\ fo_method options = "POST").

Definition fetches (trace : list call) : list (value * FetchOptions) :=
  omap (fun c => match c with
                 | CallFetch url options => Some (url, options)
                 | CallGetApiKey _ => None
                 end) trace.

(** The entries of an object under all keys but the given ones, in order. *)
Definition without (keys : list string) (ps : list (string * value))
  : list (string * value) :=
  List.filter (fun p => negb (existsb (String.eqb (fst p)) keys)) ps.

(** The messages a client sent, when it sent an array. *)
Definition messagesOf (req : value) : list value :=
  match field (spread req) "messages" with VArr items => items | _ => [] end.

Definition isOk {A} (r : result A) : bool :=
  match r with Ok _ => true | Throw _ => false end.

(** The bodies on which [convertResponseToChatCompletion] does not throw. *)
Fixpoint upToMessage (output : list value) : bool :=
  match output with
  | [] => true
  | o :: rest =>
      negb (nullish o)
      && (if strictEqStr (prop o "type") "message"
          then match prop o "content" with
               | VUndefined | VNull => true
               | VArr parts => forallb (fun c => negb (nullish c)) parts
               | _ => false
               end
          else upToMessage rest)
  end.

Definition adaptable (resp : value) : bool :=
  truthy resp && typeofObject resp
  && match or_else (prop resp "output") (VArr []) with
     | VArr output => upToMessage output
     | _ => false
     end
  && (negb (truthy (prop resp "id")) || Common.typeofString (prop resp "id")).

(** Whether the content of the item the adapter picked can be filtered. *)
Definition contentWalk (m : value) : bool :=
  match optProp m "content" with
  | VUndefined | VNull => true
  | VArr parts => forallb (fun c => negb (nullish c)) parts
  | _ => false
  end.

(** The clock reading left for [created] once the id is made. *)
Definition createdOf (clock : list Z) (resp : value) : value :=
  or_else (prop resp "created_at")
    (VNum (hd 0 (match prop resp "id" with
                 | VStr _ => clock
                 | _ => tl clock
                 end) / 1000)).

Definition roleOf (message : option value) : value :=
  match message with
  | Some m => or_else (prop m "role") (VStr "assistant")
  | None => VStr "assistant"
  end.

(** A character of a generated id against the character of the template at
    its place. *)
Definition isHexDigit (c : ascii) : bool :=
  existsb (Ascii.eqb c) (list_ascii_of_string "0123456789abcdef").

Definition slotOk (template c : ascii) : Prop :=
  if Ascii.eqb template "x" then isHexDigit c = true
  else if Ascii.eqb template "y"
       then existsb (Ascii.eqb c) (list_ascii_of_string "89ab") = true
       else c = template.

Definition commonHeaderNames : list string :=
  ["accept"; "content-type"; "authorization"; "x-api-provider";
   "x-factory-client"; "x-session-id"; "x-assistant-message-id";
   "user-agent"; "connection"; "x-stainless-arch"; "x-stainless-lang";
   "x-stainless-os"; "x-stainless-runtime"; "x-stainless-retry-count";
   "x-stainless-package-version"; "x-stainless-runtime-version"].

(** A header of the client, when it has one that is not empty. *)
Definition clientOr (clientHeaders : gmap string string) (name : string)
    (fallback : value) : value :=
  match clientHeaders !! name with
  | Some s => if String.eqb s "" then fallback else VStr s
  | None => fallback
  end.

End Shapes.

(** ** Further worked examples *)

Module Cases.
Import Routes.

(** An upstream that cannot be reached. *)
Definition offline (e : exn) : World :=
  {| getApiKey := getApiKey (Demo.world (Demo.upstream 200 "{}" (Ok VNull)));
     getNextProxyAgent := fun _ => VNull;
     fetch := fun _ _ => Throw e;
     transformToAnthropic := fun r => Ok r;
     getAnthropicHeaders := fun auth _ _ _ _ => VObj [("authorization", auth)];
     transformToOpenAI := fun r => Ok r;
     getOpenAIHeaders := fun auth _ _ => VObj [("authorization", auth)];
     anthropicTransformStream := fun _ _ chunks => chunks;
     openaiTransformStream := fun _ _ chunks => chunks;
     clock := [1700000000123; 1700000000456];
     sessionDraws := [];
     messageDraws := [] |}.

(** A registry with one model of a type no endpoint family knows. *)
Definition odd : Config :=
  {| getRedirectedModelId := fun id => id;
     getModelById := fun id =>
       VObj [("id", id); ("type", VStr "bedrock")];
     getEndpointByType := fun type =>
       VObj [("base_url", VStr "https://upstream.test/other")];
     getSystemPrompt := "";
     getModelReasoning := fun _ => VNull;
     getModelProvider := fun _ => VStr "demo";
     getUserAgent := "demo-agent/1.0" |}.

Definition configJson : value :=
  VObj [("port", VNum 3000);
        ("models",
         VArr [VObj [("name", VStr "Claude Opus 4");
                     ("id", VStr "claude-opus-4-1-20250805");
                     ("type", VStr "anthropic");
                     ("reasoning", VStr "high")];
               VObj [("name", VStr "GPT-5");
                     ("id", VStr "gpt-5-2025-08-07");
                     ("type", VStr "openai");
                     ("reasoning", VStr "medium")]])].

(** Express's matcher, for paths given exactly. *)
Definition express (dev : bool) : Server.Express :=
  {| Server.matches := fun verb pattern req =>
       String.eqb (Server.http_path req) pattern
       && (if String.eqb verb "get"
           then String.eqb (Server.http_method req) "GET"
           else String.eqb (Server.http_method req) "POST");
     Server.isDevMode := dev;
     Server.getConfig := Ok configJson;
     Server.timestamp := "2025-01-01T00:00:00.000Z" |}.

End Cases.

(** ** Properties of objects *)

Section Objects.
Implicit Types (ps : list (string * value)) (k : string) (v : value).

Lemma lookupProp_setProp_eq ps k v : lookupProp (setProp ps k v) k = Some v.
Proof.
  induction ps as [|[k' v'] ps IH]; simpl.
  - by rewrite String.eqb_refl.
  - destruct (String.eqb k' k) eqn:E; simpl.
    + by rewrite String.eqb_refl.
    + by rewrite E.
Qed.

Lemma lookupProp_setProp_ne ps k k' v :
  k <> k' -> lookupProp (setProp ps k v) k' = lookupProp ps k'.
Proof.
  intros Hne. induction ps as [|[k0 v0] ps IH]; simpl.
  - by apply String.eqb_neq in Hne as ->.
  - destruct (String.eqb k0 k) eqn:E; simpl.
    + apply String.eqb_eq in E as ->.
      by apply String.eqb_neq in Hne as ->.
    + by rewrite IH.
Qed.

Lemma lookupProp_deleteProp_eq ps k : lookupProp (deleteProp ps k) k = None.
Proof.
  induction ps as [|[k' v'] ps IH]; simpl; [done|].
  destruct (String.eqb k' k) eqn:E; simpl; [done|]. by rewrite E.
Qed.

Lemma lookupProp_deleteProp_ne ps k k' :
  k <> k' -> lookupProp (deleteProp ps k) k' = lookupProp ps k'.
Proof.
  intros Hne. induction ps as [|[k0 v0] ps IH]; simpl; [done|].
  destruct (String.eqb k0 k) eqn:E; simpl.
  - apply String.eqb_eq in E as ->.
    by apply String.eqb_neq in Hne as ->.
  - by rewrite IH.
Qed.

Lemma deleteProp_setProp_eq ps k v :
  deleteProp (setProp ps k v) k = deleteProp ps k.
Proof.
  induction ps as [|[k' v'] ps IH]; simpl.
  - by rewrite String.eqb_refl.
  - destruct (String.eqb k' k) eqn:E; simpl.
    + by rewrite String.eqb_refl.
    + by rewrite E, IH.
Qed.

Lemma deleteProp_setProp_ne ps k k' v :
  k <> k' -> deleteProp (setProp ps k v) k' = setProp (deleteProp ps k') k v.
Proof.
  intros Hne. induction ps as [|[k0 v0] ps IH]; simpl.
  - by apply String.eqb_neq in Hne as ->.
  - destruct (String.eqb k0 k) eqn:E; simpl.
    + apply String.eqb_eq in E as ->.
      apply String.eqb_neq in Hne as Hne'. rewrite Hne'. simpl.
      by rewrite String.eqb_refl.
    + destruct (String.eqb k0 k') eqn:E'; simpl; [done|].
      by rewrite E, IH.
Qed.

Lemma deleteProp_comm ps k k' :
  deleteProp (deleteProp ps k) k' = deleteProp (deleteProp ps k') k.
Proof.
  induction ps as [|[k0 v0] ps IH]; simpl; [done|].
  destruct (String.eqb k0 k) eqn:E, (String.eqb k0 k') eqn:E'; simpl;
    rewrite ?E, ?E'; by rewrite ?IH.
Qed.

Lemma hasOwn_deleteProp ps k : hasOwn (deleteProp ps k) k = false.
Proof. unfold hasOwn. by rewrite lookupProp_deleteProp_eq. Qed.

Lemma field_setProp_eq ps k v : field (setProp ps k v) k = v.
Proof. unfold field. by rewrite lookupProp_setProp_eq. Qed.

Lemma field_setProp_ne ps k k' v :
  k <> k' -> field (setProp ps k v) k' = field ps k'.
Proof. intros. unfold field. by rewrite lookupProp_setProp_ne. Qed.

End Objects.

(** ** The reasoning-level policy *)

Section Levels.
Import Props.

Lemma levelFixed_dispatch level :
  levelFixed level ->
  strictEqStr (VStr level) "auto" = false
  /\ truthy (VStr level) && includesStr ["low"; "medium"; "high"] (VStr level)
     = true.
Proof. by intros [-> | [-> | ->]]. Qed.

Lemma levelOff_dispatch level :
  levelOff level ->
  strictEqStr level "auto" = false
  /\ truthy level && includesStr ["low"; "medium"; "high"] level = false.
Proof. intros [-> ->]. split; [done|]. by rewrite andb_false_r. Qed.

Lemma budgetTokens_table level :
  levelFixed level ->
  field Routes.DirectMessages.budgetTokens level = VNum (budgetOf level).
Proof. by intros [-> | [-> | ->]]. Qed.

End Levels.

(** ** What each body builder touches *)

Section Bodies.
Import Routes Props.
Context (cfg : Config).

(** The level policy, applied to an object under a given field name. *)
Lemma messages_frame req modelId k :
  k <> "model" -> k <> "system" -> k <> "thinking" ->
  lookupProp (DirectMessages.modifiedRequest cfg req modelId) k
  = lookupProp (spread req) k.
Proof.
  intros Hm Hs Ht. unfold DirectMessages.modifiedRequest.
  set (base := setProp (spread req) "model" modelId).
  assert (Hbase : lookupProp base k = lookupProp (spread req) k)
    by (by apply lookupProp_setProp_ne).
  set (withSystem := if truthy (VStr (getSystemPrompt cfg)) then _ else _).
  assert (Hsys : lookupProp withSystem k = lookupProp (spread req) k).
  { subst withSystem. repeat case_match; try done;
      by rewrite lookupProp_setProp_ne. }
  repeat case_match; try done.
  - by rewrite lookupProp_setProp_ne.
  - by rewrite lookupProp_deleteProp_ne.
Qed.

Lemma responses_frame req modelId k :
  k <> "model" -> k <> "instructions" -> k <> "reasoning" ->
  lookupProp (DirectResponses.modifiedRequest cfg req modelId) k
  = lookupProp (spread req) k.
Proof.
  intros Hm Hs Ht. unfold DirectResponses.modifiedRequest.
  set (base := setProp (spread req) "model" modelId).
  assert (Hbase : lookupProp base k = lookupProp (spread req) k)
    by (by apply lookupProp_setProp_ne).
  set (withPrompt := if truthy (VStr (getSystemPrompt cfg)) then _ else _).
  assert (Hsys : lookupProp withPrompt k = lookupProp (spread req) k).
  { subst withPrompt. repeat case_match; try done;
      by rewrite lookupProp_setProp_ne. }
  repeat case_match; try done.
  - by rewrite lookupProp_setProp_ne.
  - by rewrite lookupProp_deleteProp_ne.
Qed.

(** [transformToCommon] changes [messages] at most, then applies the level
    policy to [reasoning_effort]. *)
Lemma common_shape req out :
  Common.transformToCommon cfg req = Ok out ->
  exists injected,
    (injected = spread req
     \/ exists messages, injected = setProp (spread req) "messages" messages)
    /\ out =
       VObj (withLevel "reasoning_effort"
               (getModelReasoning cfg (prop req "model")) injected).
Proof.
  unfold Common.transformToCommon.
  set (inject := if truthy (VStr (getSystemPrompt cfg)) then _ else _).
  intros H.
  destruct inject as [injected|e] eqn:Hinj; [|done].
  simpl in H. unfold getProp in H.
  destruct (nullish req) eqn:Hn; [done|]. simpl in H.
  exists injected. split; [|by injection H as <-].
  subst inject. clear H.
  destruct (truthy (VStr (getSystemPrompt cfg))); [|left; congruence].
  right.
  repeat match type of Hinj with
         | context [mbind _ ?m] =>
             let E := fresh "E" in destruct m eqn:E; simpl in Hinj
         | context [if ?b then _ else _] =>
             let E := fresh "E" in destruct b eqn:E; simpl in Hinj
         end;
    try done; injection Hinj as <-; eauto.
Qed.

End Bodies.

(** ** The Common transformer on a walkable request *)

Section CommonInjection.
Import Routes Props.
Context (cfg : Config).

Lemma isSystem_ok m :
  nullish m = false -> Common.isSystem m = Ok (hasRole "system" m).
Proof. intros H. unfold Common.isSystem, getProp. by rewrite H. Qed.

Lemma hasRole_not_nullish m : hasRole "system" m = true -> nullish m = false.
Proof. by destruct m. Qed.

Lemma some_isSystem items :
  forallb (fun m => negb (nullish m)) items = true ->
  Array_some Common.isSystem items = Ok (existsb (hasRole "system") items).
Proof.
  induction items as [|m items IH]; simpl; [done|].
  intros [Hm Hrest]%andb_true_iff. apply negb_true_iff in Hm.
  rewrite isSystem_ok by done. simpl.
  destruct (hasRole "system" m); simpl; [done|]. by apply IH.
Qed.

(** [findIndex] stops at the first system message. *)
Lemma findIndex_first pre m post i :
  forallb (fun m => negb (nullish m)) pre = true ->
  existsb (hasRole "system") pre = false ->
  hasRole "system" m = true ->
  findIndex_from Common.isSystem i (pre ++ m :: post)%list
  = Ok (i + Z.of_nat (length pre)).
Proof.
  revert i. induction pre as [|x pre IH]; simpl; intros i Hnn Hno Hm.
  - rewrite isSystem_ok by by apply hasRole_not_nullish.
    simpl. rewrite Hm. f_equal. lia.
  - apply andb_true_iff in Hnn as [Hx Hnn]. apply negb_true_iff in Hx.
    apply orb_false_iff in Hno as [Hxs Hno].
    rewrite isSystem_ok by done. simpl. rewrite Hxs.
    rewrite IH by done. f_equal. lia.
Qed.

(** A split of the messages at their first system message. *)
Lemma split_first_system items :
  existsb (hasRole "system") items = true ->
  exists pre m post,
    items = (pre ++ m :: post)%list
    /\ existsb (hasRole "system") pre = false
    /\ hasRole "system" m = true.
Proof.
  induction items as [|x items IH]; simpl; [done|].
  destruct (hasRole "system" x) eqn:Hx; simpl.
  - intros _. by exists [], x, items.
  - intros (pre & m & post & -> & Hpre & Hm)%IH.
    exists (x :: pre), m, post. simpl. by rewrite Hx.
Qed.

Lemma prependToFirstSystem_split prompt pre m post :
  existsb (hasRole "system") pre = false ->
  hasRole "system" m = true ->
  prependToFirstSystem prompt (pre ++ m :: post)%list
  = (pre ++ prompted prompt m :: post)%list.
Proof.
  induction pre as [|x pre IH]; simpl; intros Hno Hm.
  - by rewrite Hm.
  - apply orb_false_iff in Hno as [-> Hno]. by rewrite IH.
Qed.

Lemma visit_ok prompt items first msg index :
  Array_findIndex Common.isSystem items = Ok first ->
  nullish msg = false ->
  Common.visit prompt items msg index
  = Ok (if hasRole "system" msg && (index =? first)
        then prompted prompt msg else msg).
Proof.
  intros Hfirst Hmsg. unfold Common.visit, getProp. rewrite Hmsg. simpl.
  fold (hasRole "system" msg). destruct (hasRole "system" msg); [|done].
  rewrite Hfirst. simpl. destruct (index =? first); [|done].
  simpl. unfold prompted, systemMessage. by destruct (prop msg "content").
Qed.

Lemma map_before prompt items first seg i :
  Array_findIndex Common.isSystem items = Ok first ->
  forallb (fun m => negb (nullish m)) seg = true ->
  existsb (hasRole "system") seg = false ->
  map_from (Common.visit prompt items) i seg = Ok seg.
Proof.
  intros Hfirst. revert i. induction seg as [|x seg IH]; simpl; [done|].
  intros i [Hx Hnn]%andb_true_iff [Hxs Hno]%orb_false_iff.
  apply negb_true_iff in Hx.
  rewrite (visit_ok _ _ first) by done. rewrite Hxs. simpl.
  by rewrite IH.
Qed.

Lemma map_after prompt items first seg i :
  Array_findIndex Common.isSystem items = Ok first ->
  forallb (fun m => negb (nullish m)) seg = true ->
  first < i ->
  map_from (Common.visit prompt items) i seg = Ok seg.
Proof.
  intros Hfirst. revert i. induction seg as [|x seg IH]; simpl; [done|].
  intros i [Hx Hnn]%andb_true_iff Hlt. apply negb_true_iff in Hx.
  rewrite (visit_ok _ _ first) by done.
  assert ((i =? first) = false) as -> by lia. rewrite andb_false_r. simpl.
  rewrite IH by (done || lia). done.
Qed.

Lemma bind_Ok {A B} (a : A) (f : A -> result B) : (Ok a ≫= f) = f a.
Proof. done. Qed.

Lemma map_from_cons f i x rest :
  map_from f i (x :: rest)
  = (y ← f x i; ys ← map_from f (i + 1) rest; Ok (y :: ys)).
Proof. done. Qed.

Lemma map_from_app f i xs ys :
  map_from f i (xs ++ ys)%list
  = (xs' ← map_from f i xs;
     ys' ← map_from f (i + Z.of_nat (length xs)) ys;
     Ok (xs' ++ ys')%list).
Proof.
  revert i. induction xs as [|x xs IH]; intros i; simpl.
  - rewrite Z.add_0_r. by destruct (map_from f i ys).
  - destruct (f x i); simpl; [|done]. rewrite IH.
    replace (i + 1 + Z.of_nat (length xs))
      with (i + Z.pos (Pos.of_succ_nat (length xs))) by lia.
    destruct (map_from f (i + 1) xs); simpl; [|done].
    by destruct (map_from f _ ys).
Qed.

Lemma map_visit prompt items :
  forallb (fun m => negb (nullish m)) items = true ->
  existsb (hasRole "system") items = true ->
  Array_map (Common.visit prompt items) items
  = Ok (prependToFirstSystem prompt items).
Proof.
  intros Hnn Hsome.
  destruct (split_first_system _ Hsome) as (pre & m & post & E & Hpre & Hm).
  assert (Hnn' := Hnn). rewrite E, forallb_app in Hnn'. simpl in Hnn'.
  apply andb_true_iff in Hnn' as [Hnpre [Hnm Hnpost]%andb_true_iff].
  apply negb_true_iff in Hnm.
  assert (Hfirst : Array_findIndex Common.isSystem items
                   = Ok (Z.of_nat (length pre))).
  { unfold Array_findIndex. rewrite E. by rewrite findIndex_first. }
  unfold Array_map. rewrite E at 2. rewrite map_from_app.
  rewrite (map_before prompt items _ pre 0 Hfirst Hnpre Hpre).
  rewrite bind_Ok, map_from_cons.
  rewrite (visit_ok prompt items _ m _ Hfirst Hnm).
  rewrite Hm, Z.eqb_refl, bind_Ok.
  rewrite (map_after prompt items _ post _ Hfirst Hnpost) by lia.
  rewrite !bind_Ok, E. by rewrite prependToFirstSystem_split.
Qed.

(** With a prompt configured, a walkable request always goes through, and
    its messages are rebuilt by [injectMessages]. *)
Lemma common_injects req :
  getSystemPrompt cfg <> "" ->
  nullish req = false ->
  walkable (field (spread req) "messages") = true ->
  Common.transformToCommon cfg req
  = Ok (VObj
          (withLevel "reasoning_effort"
             (getModelReasoning cfg (prop req "model"))
             (setProp (spread req) "messages"
                (VArr (injectMessages (getSystemPrompt cfg)
                         (field (spread req) "messages")))))).
Proof.
  intros Hprompt Hreq Hwalk. unfold Common.transformToCommon.
  assert (truthy (VStr (getSystemPrompt cfg)) = true) as ->.
  { simpl. apply negb_true_iff. by apply String.eqb_neq. }
  unfold getProp at 1. rewrite Hreq.
  destruct (field (spread req) "messages") as [| | | | |items|] eqn:Hm;
    try done.
  - simpl in Hwalk. simpl. rewrite some_isSystem by done. simpl.
    destruct (existsb (hasRole "system") items) eqn:Hsome; simpl; [|done].
    by rewrite map_visit.
Qed.

(** Without a prompt the messages are not looked at. *)
Lemma common_no_prompt req :
  getSystemPrompt cfg = "" ->
  nullish req = false ->
  Common.transformToCommon cfg req
  = Ok (VObj (withLevel "reasoning_effort"
                (getModelReasoning cfg (prop req "model")) (spread req))).
Proof.
  intros Hprompt Hreq. unfold Common.transformToCommon, getProp.
  by rewrite Hprompt, Hreq.
Qed.

End CommonInjection.

(** ** The reasoning-level policy of the three request paths *)

Section ReasoningPolicy.
Import Routes Props.
Context (cfg : Config).

Lemma lookupProp_withLevel_ne k k' level obj :
  k <> k' -> lookupProp (withLevel k level obj) k' = lookupProp obj k'.
Proof.
  intros Hne. unfold withLevel. repeat case_match; try done.
  - by apply lookupProp_setProp_ne.
  - by apply lookupProp_deleteProp_ne.
Qed.

Lemma withLevel_auto k obj : withLevel k (VStr "auto") obj = obj.
Proof. done. Qed.

Lemma prop_redirected ps modelId :
  prop (VObj (setProp ps "model" modelId)) "model" = modelId.
Proof. apply field_setProp_eq. Qed.

Lemma walkable_redirected req modelId :
  walkable (field (setProp (spread req) "model" modelId) "messages")
  = walkable (field (spread req) "messages").
Proof. by rewrite field_setProp_ne. Qed.

(** The Common transformer, on the request the chat handler gives it. *)
Lemma common_total req modelId :
  walkable (field (spread req) "messages") = true ->
  exists injected,
    Common.transformToCommon cfg (VObj (setProp (spread req) "model" modelId))
    = Ok (VObj (withLevel "reasoning_effort" (getModelReasoning cfg modelId)
                  injected)).
Proof.
  intros Hwalk.
  destruct (String.eqb (getSystemPrompt cfg) "") eqn:Hp.
  - apply String.eqb_eq in Hp. eexists.
    rewrite common_no_prompt by done. simpl. by rewrite field_setProp_eq.
  - apply String.eqb_neq in Hp. eexists.
    rewrite common_injects;
      [|done|done|simpl; by rewrite walkable_redirected].
    simpl. by rewrite field_setProp_eq.
Qed.

Lemma common_frame req modelId out k :
  Common.transformToCommon cfg (VObj (setProp (spread req) "model" modelId))
  = Ok out ->
  k <> "model" -> k <> "messages" -> k <> "reasoning_effort" ->
  exists body, out = VObj body /\ lookupProp body k = lookupProp (spread req) k.
Proof.
  intros (injected & Hinj & ->)%common_shape Hm Hs Hr.
  eexists. split; [done|].
  rewrite lookupProp_withLevel_ne by done.
  destruct Hinj as [-> | [messages ->]]; simpl.
  - by rewrite lookupProp_setProp_ne.
  - by rewrite !lookupProp_setProp_ne.
Qed.

End ReasoningPolicy.

(** ** Reasoning level off *)

Section LevelOff.
Import Routes Props.




End LevelOff.

(** ** Reasoning level low, medium or high *)

Section LevelFixed.
Import Routes Props.



End LevelFixed.

(** ** Reasoning level auto *)

Section LevelAuto.
Import Routes Props.



End LevelAuto.

(** ** System prompt injection *)

Section SystemPrompt.
Import Routes Props.

(** Both branches of the level policy, for a field it does not touch. *)
Ltac level_cases :=
  match goal with
  | |- context [strictEqStr ?l "auto"] =>
      destruct (strictEqStr l "auto");
      [| destruct (truthy l && includesStr ["low"; "medium"; "high"] l)]
  end;
  rewrite ?lookupProp_setProp_ne, ?lookupProp_deleteProp_ne by done.

Lemma append_empty_r (s : string) : s ++ "" = s.
Proof.
  induction s as [|c s IH]; [done|].
  change (String c s ++ "") with (String c (s ++ "")). by rewrite IH.
Qed.

Lemma injectMessages_none prompt items :
  existsb (hasRole "system") items = false ->
  injectMessages prompt (VArr items) = systemMessage prompt :: items.
Proof. intros H. simpl. by rewrite H. Qed.

Lemma injectMessages_first prompt pre m post s :
  existsb (hasRole "system") pre = false ->
  hasRole "system" m = true ->
  prop m "content" = VStr s ->
  injectMessages prompt (VArr (pre ++ m :: post))
  = (pre ++ systemMessage (prompt ++ s) :: post)%list.
Proof.
  intros Hpre Hm Hs. simpl. rewrite existsb_app. simpl. rewrite Hm.
  rewrite orb_true_r, prependToFirstSystem_split by done.
  unfold prompted. by rewrite Hs.
Qed.




End SystemPrompt.

(** ** Reasoning about handlers *)

Section HandlerLogic.
Import Routes Props.

Lemma wp_ret {A} (a : A) trace Q : Q (Value a) trace -> wp (mret a) trace Q.
Proof. done. Qed.

Lemma wp_bind {A B} (m : handler A) (k : A -> handler B) trace Q :
  wp m trace (fun o trace' =>
                match o with
                | Value a => wp (k a) trace' Q
                | Return r => Q (Return r) trace'
                | Raise e => Q (Raise e) trace'
                end) ->
  wp (m ≫= k) trace Q.
Proof.
  unfold wp, mbind, handler_bind.
  by destruct (m trace) as [[a|r|e] trace'].
Qed.

Lemma wp_lift {A} (r : result A) trace Q :
  match r with
  | Ok a => Q (Value a) trace
  | Throw e => Q (Raise e) trace
  end ->
  wp (lift r) trace Q.
Proof. unfold wp, lift. by destruct r. Qed.

Lemma wp_respond {A} code payload trace (Q : outcome A -> _ -> Prop) :
  Q (Return (ReplyJson code payload)) trace -> wp (respond code payload) trace Q.
Proof. done. Qed.

Lemma wp_perform {A} c (r : result A) trace Q :
  match r with
  | Ok a => Q (Value a) (trace ++ [c])%list
  | Throw e => Q (Raise e) (trace ++ [c])%list
  end ->
  wp (perform c r) trace Q.
Proof. unfold wp, perform. by destruct r. Qed.

Lemma wp_try_catch {A} (m : handler A) h trace Q :
  wp m trace (fun o trace' =>
                match o with
                | Raise e => wp (h e) trace' Q
                | _ => Q o trace'
                end) ->
  wp (try_catch m h) trace Q.
Proof.
  unfold wp, try_catch.
  by destruct (m trace) as [[a|r|e] trace'].
Qed.

Lemma serve_wp (P : reply * list call -> Prop) r cfg w req :
  wp (dispatch r cfg w req) [] (fun o trace => P (finish o, trace)) ->
  P (serve r cfg w req).
Proof.
  unfold wp, serve, run.
  by destruct (dispatch r cfg w req []) as [[a|a|e] trace].
Qed.

Lemma getProp_Ok v k x : getProp v k = Ok x -> nullish v = false /\ x = prop v k.
Proof.
  unfold getProp. destruct (nullish v); [done|]. by intros [= <-].
Qed.

End HandlerLogic.

(** One step of a handler: the rule for the construct at its head, with a
    case split where the handler branches. *)
Ltac wp_step :=
  lazymatch goal with
  | |- Props.wp (mret _) _ _ => apply wp_ret
  | |- Props.wp (mbind _ _) _ _ => apply wp_bind
  | |- Props.wp (Routes.lift ?r) _ _ =>
      apply wp_lift; destruct r eqn:?
  | |- Props.wp (Routes.respond _ _) _ _ => apply wp_respond
  | |- Props.wp (Routes.perform _ ?r) _ _ =>
      apply wp_perform; destruct r eqn:?
  | |- Props.wp (Routes.try_catch _ _) _ _ => apply wp_try_catch
  | |- Props.wp (if ?b then _ else _) _ _ => destruct b eqn:?
  | |- Props.wp (match ?x with _ => _ end) _ _ => destruct x eqn:?
  | |- Props.wp (let _ := _ in _) _ _ => cbv zeta
  end.

Ltac wp_run := repeat (wp_step; cbn beta iota).

Section HandlerFacts.
Import Routes Props.

Lemma getProp_Throw v k e : getProp v k = Throw e -> nullish v = true.
Proof. unfold getProp. by destruct (nullish v). Qed.

Lemma strictEqStr_eq v s : strictEqStr v s = true -> v = VStr s.
Proof. destruct v; try done. simpl. by intros ->%String.eqb_eq. Qed.

(** The credential the three forwarding routes hand to [getApiKey]. *)
Lemma bearer_from_x_api_key req k :
  req_headers req !! "authorization" = None ->
  req_headers req !! "x-api-key" = Some k ->
  k <> "" ->
  or_else (header req "authorization")
    (if truthy (header req "x-api-key")
     then VStr ("Bearer " ++ toString (header req "x-api-key")) else VNull)
  = VStr ("Bearer " ++ k).
Proof.
  intros Hauth Hkey Hk. unfold header. rewrite Hauth, Hkey.
  apply String.eqb_neq in Hk. cbn [or_else truthy toString]. by rewrite Hk.
Qed.

End HandlerFacts.

(** Facts a finished run leaves in the context, in usable form. *)
Ltac tidy :=
  repeat match goal with
         | H : getProp _ _ = Ok _ |- _ => apply getProp_Ok in H as [? ->]
         | H : getProp _ _ = Throw _ |- _ => apply getProp_Throw in H
         | H : negb _ = true |- _ => apply negb_true_iff in H
         | H : negb _ = false |- _ => apply negb_false_iff in H
         end.

(** ** Unknown models *)

Section UnknownModel.
Import Routes Props.




End UnknownModel.

(** The end of a run: split the membership of a call in the trace. *)
Ltac leaf :=
  cbn [fst snd app In Props.finish]; intros;
  repeat match goal with
         | H : _ \/ _ |- _ => destruct H
         | H : False |- _ => destruct H
         | H : Routes.CallFetch _ _ = Routes.CallFetch _ _ |- _ =>
             injection H as ? ?; subst
         | H : Routes.CallGetApiKey _ = Routes.CallGetApiKey _ |- _ =>
             injection H as ?; subst
         | H : Routes.CallGetApiKey _ = Routes.CallFetch _ _ |- _ =>
             discriminate H
         | H : Routes.CallFetch _ _ = Routes.CallGetApiKey _ |- _ =>
             discriminate H
         end;
  tidy.

Ltac unfold_route r :=
  destruct r; unfold Routes.dispatch;
  [unfold Routes.handleChatCompletions | unfold Routes.handleDirectResponses
  | unfold Routes.handleDirectMessages | unfold Routes.handleCountTokens].

(** ** The body each route forwards *)

Section OutboundBodies.
Import Routes Props.

(** Whenever a handler calls the upstream, the body it sends is the one
    built from the request and the redirected model id: by the builders
    above on /v1/responses and /v1/messages, by [transformToCommon] for a
    common-type model on /v1/chat/completions, and the request with the
    model id replaced on /v1/messages/count_tokens. *)
Lemma outbound_body (r : route) (cfg : Config) (w : World) (req : Request)
    (url : value) (options : FetchOptions) :
  In (CallFetch url options) (snd (serve r cfg w req)) ->
  match r with
  | ChatCompletions =>
      strictEqStr (prop (resolvedModel cfg req) "type") "common" = true ->
      Common.transformToCommon cfg
        (VObj (setProp (spread (req_body req)) "model" (resolvedId cfg req)))
      = Ok (fo_body options)
  | Responses =>
      fo_body options
      = VObj (DirectResponses.modifiedRequest cfg (req_body req)
                (resolvedId cfg req))
  | Messages =>
      fo_body options
      = VObj (DirectMessages.modifiedRequest cfg (req_body req)
                (resolvedId cfg req))
  | CountTokens =>
      fo_body options
      = VObj (setProp (spread (req_body req)) "model" (resolvedId cfg req))
  end.
Proof.
  unfold resolvedModel, resolvedId.
  pattern (serve r cfg w req). apply serve_wp.
  unfold_route r; wp_run; leaf; cbn [fo_body] in *; try done;
    repeat match goal with
           | H : strictEqStr _ _ = true |- _ => apply strictEqStr_eq in H
           end;
    congruence.
Qed.

End OutboundBodies.

(** ** Upstream errors *)

Section UpstreamError.
Import Routes Props.

(** C6, as worded, fails: the status is the upstream's, but the body the
    client gets is a new JSON object around the upstream text, neither that
    text nor the document it parses to. *)
Lemma upstream_error_body_is_not_verbatim :
  ~ relayedVerbatim
      (Demo.upstream 429 "Too Many Requests" (Throw (Error "Unexpected token")))
      (fst (serve Messages (Demo.config "")
              (Demo.world
                 (Demo.upstream 429 "Too Many Requests"
                    (Throw (Error "Unexpected token"))))
              (Demo.request
                 [("model", VStr "claude-auto");
                  ("messages", VArr [Demo.hello])]
                 [("x-api-key", "k1")]))).
Proof.
  intros (payload & Hreply & Hbody). vm_compute in Hreply.
  injection Hreply as <-. destruct Hbody as [H | H]; vm_compute in H;
    discriminate.
Qed.

(** C6, amended: on every route, when the upstream answers with a status
    outside 200-299, the client gets that same status and the JSON body
    [{error: "Endpoint returned <status>", details: <upstream body text>}]:
    the status is relayed as it is, the upstream body is carried, unchanged,
    in [details]. *)
Theorem upstream_error_is_wrapped (r : route) (cfg : Config) (w : World)
    (req : Request) (url : value) (options : FetchOptions)
    (response : Response) (errorText : string) :
  In (CallFetch url options) (snd (serve r cfg w req)) ->
  fetch w url options = Ok response ->
  ok response = false ->
  text response = Ok errorText ->
  fst (serve r cfg w req)
  = ReplyJson (status response)
      (VObj [("error",
              VStr ("Endpoint returned " ++ string_of_Z (status response)));
             ("details", VStr errorText)]).
Proof.
  pattern (serve r cfg w req). apply serve_wp.
  unfold_route r; wp_run; leaf; unfold endpointError; congruence.
Qed.

Lemma upstream_error_is_wrapped_witness :
  (In (CallFetch (VStr "https://upstream.test/anthropic/v1/messages")
         {| fo_method := "POST";
            fo_headers := VObj [("authorization", VStr "Bearer client")];
            fo_body := VObj [("model", VStr "claude-auto");
                             ("messages", VArr [Demo.hello])];
            fo_agent := None |})
      (snd (serve Messages (Demo.config "")
              (Demo.world (Demo.upstream 503 "overloaded" (Ok (VNum 0))))
              (Demo.request
                 [("model", VStr "claude-auto");
                  ("messages", VArr [Demo.hello])]
                 [("authorization", "Bearer client")])))
   /\ ok (Demo.upstream 503 "overloaded" (Ok (VNum 0))) = false)
  /\ fst (serve Messages (Demo.config "")
            (Demo.world (Demo.upstream 503 "overloaded" (Ok (VNum 0))))
            (Demo.request
               [("model", VStr "claude-auto");
                ("messages", VArr [Demo.hello])]
               [("authorization", "Bearer client")]))
     = ReplyJson 503
         (VObj [("error", VStr "Endpoint returned 503");
                ("details", VStr "overloaded")]).
Proof.
  assert (Hin :
    In (CallFetch (VStr "https://upstream.test/anthropic/v1/messages")
          {| fo_method := "POST";
             fo_headers := VObj [("authorization", VStr "Bearer client")];
             fo_body := VObj [("model", VStr "claude-auto");
                              ("messages", VArr [Demo.hello])];
             fo_agent := None |})
       (snd (serve Messages (Demo.config "")
               (Demo.world (Demo.upstream 503 "overloaded" (Ok (VNum 0))))
               (Demo.request
                  [("model", VStr "claude-auto");
                   ("messages", VArr [Demo.hello])]
                  [("authorization", "Bearer client")])))).
  { vm_compute. right. left. reflexivity. }
  split; [by split|].
  exact (upstream_error_is_wrapped Messages (Demo.config "")
           (Demo.world (Demo.upstream 503 "overloaded" (Ok (VNum 0))))
           (Demo.request
              [("model", VStr "claude-auto"); ("messages", VArr [Demo.hello])]
              [("authorization", "Bearer client")])
           _ _ (Demo.upstream 503 "overloaded" (Ok (VNum 0)))
           "overloaded" Hin eq_refl eq_refl eq_refl).
Defined.

End UpstreamError.

(** ** The client credential handed to credential resolution *)

Section ClientCredential.
Import Routes Props.

(** C10, as worded, fails for an [x-api-key] header that is present but
    empty: the forwarding routes then pass [null], not ["Bearer "]. *)
Lemma empty_x_api_key_is_not_passed :
  req_headers (Demo.request [("model", VStr "claude-auto")]
                 [("x-api-key", "")]) !! "authorization" = None
  /\ req_headers (Demo.request [("model", VStr "claude-auto")]
                    [("x-api-key", "")]) !! "x-api-key" = Some ""
  /\ snd (serve Messages (Demo.config "")
            (Demo.world (Demo.upstream 200 "{}" (Ok (VObj []))))
            (Demo.request [("model", VStr "claude-auto")]
               [("x-api-key", "")]))
     = [CallGetApiKey VNull]
  /\ VNull <> VStr ("Bearer " ++ "").
Proof. repeat split; (vm_compute; reflexivity) || discriminate. Qed.

(** C10, amended: on /v1/responses, /v1/messages and
    /v1/messages/count_tokens, when the client sends no authorization header
    and a non-empty x-api-key header, credential resolution is called with
    ["Bearer <x-api-key>"]; on /v1/chat/completions it is called with the
    authorization header alone, whatever x-api-key says. *)
Theorem client_credential (r : route) (cfg : Config) (w : World)
    (req : Request) (clientAuth : value) :
  In (CallGetApiKey clientAuth) (snd (serve r cfg w req)) ->
  match r with
  | ChatCompletions => clientAuth = header req "authorization"
  | Responses | Messages | CountTokens =>
      forall key,
        req_headers req !! "authorization" = None ->
        req_headers req !! "x-api-key" = Some key ->
        key <> "" ->
        clientAuth = VStr ("Bearer " ++ key)
  end.
Proof.
  pattern (serve r cfg w req). apply serve_wp.
  unfold_route r; wp_run; leaf;
    solve [done | by apply bearer_from_x_api_key].
Qed.

Lemma client_credential_witness :
  (In (CallGetApiKey (VStr "Bearer k1"))
     (snd (serve CountTokens (Demo.config "")
             (Demo.world (Demo.upstream 200 "{}" (Ok (VObj []))))
             (Demo.request
                [("model", VStr "opus"); ("messages", VArr [Demo.hello])]
                [("x-api-key", "k1")])))
   /\ req_headers
        (Demo.request
           [("model", VStr "opus"); ("messages", VArr [Demo.hello])]
           [("x-api-key", "k1")]) !! "authorization" = None
   /\ req_headers
        (Demo.request
           [("model", VStr "opus"); ("messages", VArr [Demo.hello])]
           [("x-api-key", "k1")]) !! "x-api-key" = Some "k1"
   /\ "k1" <> "")
  /\ VStr "Bearer k1" = VStr ("Bearer " ++ "k1").
Proof.
  assert (Hin :
    In (CallGetApiKey (VStr "Bearer k1"))
      (snd (serve CountTokens (Demo.config "")
              (Demo.world (Demo.upstream 200 "{}" (Ok (VObj []))))
              (Demo.request
                 [("model", VStr "opus"); ("messages", VArr [Demo.hello])]
                 [("x-api-key", "k1")])))).
  { vm_compute. left. reflexivity. }
  assert (Hauth :
    req_headers
      (Demo.request
         [("model", VStr "opus"); ("messages", VArr [Demo.hello])]
         [("x-api-key", "k1")]) !! "authorization" = None).
  { vm_compute. reflexivity. }
  assert (Hkey :
    req_headers
      (Demo.request
         [("model", VStr "opus"); ("messages", VArr [Demo.hello])]
         [("x-api-key", "k1")]) !! "x-api-key" = Some "k1").
  { vm_compute. reflexivity. }
  assert (Hne : "k1" <> "") by discriminate.
  split; [by repeat split|].
  exact (client_credential CountTokens (Demo.config "")
           (Demo.world (Demo.upstream 200 "{}" (Ok (VObj []))))
           (Demo.request
              [("model", VStr "opus"); ("messages", VArr [Demo.hello])]
              [("x-api-key", "k1")])
           (VStr "Bearer k1") Hin "k1" Hauth Hkey Hne).
Defined.

End ClientCredential.

(** ** The adapter fallback of /v1/chat/completions *)

Section AdapterFallback.
Import Routes Props.

(** C8: on /v1/chat/completions, for an openai-type model and a request on
    the whole-body path, when the upstream answers 2xx with a JSON document
    on which [convertResponseToChatCompletion] throws, the client gets that
    document itself, with status 200.  (The transformed request is an
    object, as the OpenAI transformer builds it.) *)
Theorem adapter_failure_falls_back (cfg : Config) (w : World) (req : Request)
    (url : value) (options : FetchOptions) (response : Response)
    (data : value) (e : exn) :
  In (CallFetch url options) (snd (serve ChatCompletions cfg w req)) ->
  fetch w url options = Ok response ->
  ok response = true ->
  strictEqStr (prop (resolvedModel cfg req) "type") "openai" = true ->
  nullish (fo_body options) = false ->
  strictEqTrue (prop (fo_body options) "stream") = false ->
  json response = Ok data ->
  convertResponseToChatCompletion (clock w) data = Throw e ->
  fst (serve ChatCompletions cfg w req) = ReplyJson 200 data.
Proof.
  unfold resolvedModel, resolvedId.
  pattern (serve ChatCompletions cfg w req). apply serve_wp.
  unfold dispatch, handleChatCompletions.
  wp_run; leaf; cbn [fo_body] in *; congruence.
Qed.

Lemma adapter_failure_falls_back_witness :
  (In (CallFetch (VStr "https://upstream.test/openai/v1/messages")
         {| fo_method := "POST";
            fo_headers := VObj [("authorization", VStr "Bearer client")];
            fo_body := VObj [("model", VStr "gpt-auto");
                             ("messages", VArr [Demo.hello])];
            fo_agent := None |})
      (snd (serve ChatCompletions (Demo.config "")
              (Demo.world (Demo.upstream 200 "7" (Ok (VNum 7))))
              (Demo.request
                 [("model", VStr "gpt-auto"); ("messages", VArr [Demo.hello])]
                 [("authorization", "Bearer client")])))
   /\ ok (Demo.upstream 200 "7" (Ok (VNum 7))) = true
   /\ strictEqStr
        (prop (resolvedModel (Demo.config "")
                 (Demo.request
                    [("model", VStr "gpt-auto");
                     ("messages", VArr [Demo.hello])]
                    [("authorization", "Bearer client")]))
           "type")
        "openai" = true
   /\ convertResponseToChatCompletion
        (clock (Demo.world (Demo.upstream 200 "7" (Ok (VNum 7))))) (VNum 7)
      = Throw (Error "Invalid response object"))
  /\ fst (serve ChatCompletions (Demo.config "")
            (Demo.world (Demo.upstream 200 "7" (Ok (VNum 7))))
            (Demo.request
               [("model", VStr "gpt-auto"); ("messages", VArr [Demo.hello])]
               [("authorization", "Bearer client")]))
     = ReplyJson 200 (VNum 7).
Proof.
  assert (Hin :
    In (CallFetch (VStr "https://upstream.test/openai/v1/messages")
          {| fo_method := "POST";
             fo_headers := VObj [("authorization", VStr "Bearer client")];
             fo_body := VObj [("model", VStr "gpt-auto");
                              ("messages", VArr [Demo.hello])];
             fo_agent := None |})
       (snd (serve ChatCompletions (Demo.config "")
               (Demo.world (Demo.upstream 200 "7" (Ok (VNum 7))))
               (Demo.request
                  [("model", VStr "gpt-auto");
                   ("messages", VArr [Demo.hello])]
                  [("authorization", "Bearer client")])))).
  { vm_compute. right. left. reflexivity. }
  split; [by repeat split|].
  exact (adapter_failure_falls_back (Demo.config "")
           (Demo.world (Demo.upstream 200 "7" (Ok (VNum 7))))
           (Demo.request
              [("model", VStr "gpt-auto"); ("messages", VArr [Demo.hello])]
              [("authorization", "Bearer client")])
           _ _ (Demo.upstream 200 "7" (Ok (VNum 7))) (VNum 7)
           (Error "Invalid response object")
           Hin eq_refl eq_refl eq_refl eq_refl eq_refl eq_refl eq_refl).
Defined.

End AdapterFallback.

(** ** Streaming or whole body *)

Section Streaming.
Import Routes Props.

Lemma string_of_Z_not_stream z : String.eqb (string_of_Z z) "stream" = false.
Proof.
  unfold string_of_Z. destruct (Z.to_int z) as [u|u]; [destruct u|]; reflexivity.
Qed.

Lemma lookupProp_enumerate_stream i items :
  lookupProp (enumerate i items) "stream" = None.
Proof.
  revert i. induction items as [|x items IH]; intros i; simpl; [done|].
  unfold string_of_nat. by rewrite string_of_Z_not_stream.
Qed.

Lemma field_spread_stream v : field (spread v) "stream" = prop v "stream".
Proof.
  unfold field. destruct v; simpl; try done;
    by rewrite lookupProp_enumerate_stream.
Qed.

Lemma chat_common_stream cfg w req url options :
  In (CallFetch url options) (snd (serve ChatCompletions cfg w req)) ->
  strictEqStr (prop (resolvedModel cfg req) "type") "common" = true ->
  prop (fo_body options) "stream" = prop (req_body req) "stream".
Proof.
  unfold resolvedModel, resolvedId.
  pattern (serve ChatCompletions cfg w req). apply serve_wp.
  unfold dispatch, handleChatCompletions.
  wp_run; leaf; cbn [fo_body] in *;
    repeat match goal with
           | H : strictEqStr _ _ = true |- _ => apply strictEqStr_eq in H
           end;
    try congruence.
  all: match goal with
       | H : Common.transformToCommon _ _ = Ok _ |- _ =>
           destruct (common_frame _ _ _ _ "stream" H) as (? & -> & Hk);
           [done..|]
       end.
  all: unfold prop at 1; unfold field at 1; rewrite Hk; apply field_spread_stream.
Qed.

Lemma streaming_paths (r : route) (cfg : Config) (w : World)
    (req : Request) (url : value) (options : FetchOptions)
    (response : Response) :
  In (CallFetch url options) (snd (serve r cfg w req)) ->
  fetch w url options = Ok response ->
  ok response = true ->
  isStream (fst (serve r cfg w req)) = streamFlag r req options
  /\ (streamFlag r req options = true -> r <> ChatCompletions ->
      fst (serve r cfg w req) = ReplyStream sseHeaders (body response))
  /\ (streamFlag r req options = false ->
      nullish (fo_body options) = false ->
      match json response with
      | Ok data =>
          fst (serve r cfg w req) = ReplyJson 200 data
          \/ (r = ChatCompletions
              /\ exists converted,
                   convertResponseToChatCompletion (clock w) data = Ok converted
                   /\ fst (serve r cfg w req) = ReplyJson 200 converted)
      | Throw e => fst (serve r cfg w req) = finish (Raise e)
      end).
Proof.
  pattern (serve r cfg w req). apply serve_wp.
  unfold_route r; wp_run; leaf; cbn [fo_body streamFlag isStream] in *;
    try congruence;
    match goal with
    | H1 : fetch ?w ?u ?o = Ok ?a, H2 : fetch ?w ?u ?o = Ok ?b |- _ =>
        assert (a = b) by congruence; subst
    end; try congruence.
  all: repeat split; intros; try congruence.
  all: try (match goal with H : json _ = _ |- _ => rewrite H end;
    first [ left; reflexivity
          | right; split; [done|]; eexists; split; [eassumption|reflexivity]
          | reflexivity ]).
  all: match goal with H : nullish ?a = true |- _ => by destruct a end.
Qed.

(** C9, as worded, fails on the fourth route: /v1/messages/count_tokens
    never streams.  A request with [stream: true] that reaches a 2xx upstream
    is answered with one JSON document. *)
Lemma count_tokens_never_streams :
  strictEqTrue
    (prop (req_body
             (Demo.request
                [("model", VStr "claude-auto"); ("stream", VBool true);
                 ("messages", VArr [Demo.hello])]
                [("authorization", "Bearer client")]))
       "stream") = true
  /\ ok (Demo.upstream 200 "{}" (Ok (VObj [("input_tokens", VNum 12)]))) = true
  /\ serve CountTokens (Demo.config "")
       (Demo.world
          (Demo.upstream 200 "{}" (Ok (VObj [("input_tokens", VNum 12)]))))
       (Demo.request
          [("model", VStr "claude-auto"); ("stream", VBool true);
           ("messages", VArr [Demo.hello])]
          [("authorization", "Bearer client")])
     = (ReplyJson 200 (VObj [("input_tokens", VNum 12)]),
        [CallGetApiKey (VStr "Bearer client");
         CallFetch
           (VStr "https://upstream.test/anthropic/v1/messages/count_tokens")
           {| fo_method := "POST";
              fo_headers := VObj [("authorization", VStr "Bearer client")];
              fo_body := VObj [("model", VStr "claude-auto");
                               ("stream", VBool true);
                               ("messages", VArr [Demo.hello])];
              fo_agent := None |}])
  /\ isStream (ReplyJson 200 (VObj [("input_tokens", VNum 12)])) = false.
Proof. repeat split; vm_compute; reflexivity. Qed.

(** C9, amended: once the upstream has answered 2xx, /v1/responses and
    /v1/messages stream exactly when the request's [stream] is the boolean
    [true]; /v1/chat/completions streams exactly when the [stream] of the
    transformed request is the boolean [true], which for a common-type model
    is the client's own [stream]; /v1/messages/count_tokens never streams.
    On the two forwarding routes the stream is the upstream's chunks.  On
    the whole-body path the upstream body is parsed as JSON first and the
    client gets a single document: the parsed body with status 200 (or, on
    /v1/chat/completions, its conversion), or the internal error when the
    body does not parse. *)
Theorem streaming_decision (r : route) (cfg : Config) (w : World)
    (req : Request) (url : value) (options : FetchOptions)
    (response : Response) :
  In (CallFetch url options) (snd (serve r cfg w req)) ->
  fetch w url options = Ok response ->
  ok response = true ->
  (isStream (fst (serve r cfg w req)) = streamFlag r req options
   /\ (streamFlag r req options = true -> r <> ChatCompletions ->
       fst (serve r cfg w req) = ReplyStream sseHeaders (body response))
   /\ (streamFlag r req options = false ->
       nullish (fo_body options) = false ->
       match json response with
       | Ok data =>
           fst (serve r cfg w req) = ReplyJson 200 data
           \/ (r = ChatCompletions
               /\ exists converted,
                    convertResponseToChatCompletion (clock w) data
                    = Ok converted
                    /\ fst (serve r cfg w req) = ReplyJson 200 converted)
       | Throw e => fst (serve r cfg w req) = finish (Raise e)
       end))
  /\ (r = ChatCompletions ->
      strictEqStr (prop (resolvedModel cfg req) "type") "common" = true ->
      streamFlag r req options = strictEqTrue (prop (req_body req) "stream")).
Proof.
  intros Hin Hfetch Hok. split.
  - exact (streaming_paths r cfg w req url options response Hin Hfetch Hok).
  - intros -> Hcommon. simpl. f_equal.
    by apply (chat_common_stream cfg w req url options).
Qed.

Lemma streaming_decision_witness :
  (In (CallFetch (VStr "https://upstream.test/anthropic/v1/messages")
         {| fo_method := "POST";
            fo_headers := VObj [("authorization", VStr "Bearer client")];
            fo_body := VObj [("model", VStr "claude-auto");
                             ("stream", VBool true);
                             ("messages", VArr [Demo.hello])];
            fo_agent := None |})
      (snd (serve Messages (Demo.config "")
              (Demo.world (Demo.upstream 200 "data: hi" (Ok VNull)))
              (Demo.request
                 [("model", VStr "claude-auto"); ("stream", VBool true);
                  ("messages", VArr [Demo.hello])]
                 [("authorization", "Bearer client")])))
   /\ ok (Demo.upstream 200 "data: hi" (Ok VNull)) = true)
  /\ fst (serve Messages (Demo.config "")
            (Demo.world (Demo.upstream 200 "data: hi" (Ok VNull)))
            (Demo.request
               [("model", VStr "claude-auto"); ("stream", VBool true);
                ("messages", VArr [Demo.hello])]
               [("authorization", "Bearer client")]))
     = ReplyStream sseHeaders ["data: hi"].
Proof.
  assert (Hin :
    In (CallFetch (VStr "https://upstream.test/anthropic/v1/messages")
          {| fo_method := "POST";
             fo_headers := VObj [("authorization", VStr "Bearer client")];
             fo_body := VObj [("model", VStr "claude-auto");
                              ("stream", VBool true);
                              ("messages", VArr [Demo.hello])];
             fo_agent := None |})
       (snd (serve Messages (Demo.config "")
               (Demo.world (Demo.upstream 200 "data: hi" (Ok VNull)))
               (Demo.request
                  [("model", VStr "claude-auto"); ("stream", VBool true);
                   ("messages", VArr [Demo.hello])]
                  [("authorization", "Bearer client")])))).
  { vm_compute. right. left. reflexivity. }
  split; [by split|].
  apply (streaming_decision Messages (Demo.config "")
           (Demo.world (Demo.upstream 200 "data: hi" (Ok VNull)))
           (Demo.request
              [("model", VStr "claude-auto"); ("stream", VBool true);
               ("messages", VArr [Demo.hello])]
              [("authorization", "Bearer client")])
           _ _ (Demo.upstream 200 "data: hi" (Ok VNull))
           Hin eq_refl eq_refl); [reflexivity | discriminate].
Defined.

End Streaming.

(** ** The non-streaming adapter *)

Section Adapter.
Import Routes Props.

Lemma isObject_getProp o k : isObject o = true -> getProp o k = Ok (prop o k).
Proof. by destruct o. Qed.

Lemma typeIs_ok lit o :
  isObject o = true -> typeIs lit o = Ok (strictEqStr (prop o "type") lit).
Proof. intros H. unfold typeIs. by rewrite isObject_getProp. Qed.

Lemma find_objects lit items :
  forallb isObject items = true ->
  Array_find (typeIs lit) items
  = Ok (default VUndefined
          (List.find (fun o => strictEqStr (prop o "type") lit) items)).
Proof.
  induction items as [|o items IH]; simpl; [done|].
  intros [Ho Hrest]%andb_true_iff. rewrite typeIs_ok by done. simpl.
  destruct (strictEqStr (prop o "type") lit); [done|]. by apply IH.
Qed.

Lemma filter_objects lit parts :
  forallb isObject parts = true ->
  Array_filter (typeIs lit) parts
  = Ok (List.filter (fun c => strictEqStr (prop c "type") lit) parts).
Proof.
  induction parts as [|c parts IH]; simpl; [done|].
  intros [Hc Hrest]%andb_true_iff. rewrite typeIs_ok by done. simpl.
  rewrite IH by done. simpl.
  by destruct (strictEqStr (prop c "type") lit).
Qed.

Lemma texts_of_objects blocks i :
  forallb isObject blocks = true ->
  map_from (fun c _ => getProp c "text") i blocks
  = Ok (map (fun c => prop c "text") blocks).
Proof.
  revert i. induction blocks as [|c blocks IH]; intros i; simpl; [done|].
  intros [Hc Hrest]%andb_true_iff. rewrite isObject_getProp by done. simpl.
  by rewrite IH.
Qed.

Lemma forallb_filter {A} (P f : A -> bool) l :
  forallb P l = true -> forallb P (List.filter f l) = true.
Proof.
  induction l as [|x l IH]; simpl; [done|].
  intros [Hx Hl]%andb_true_iff. destruct (f x); simpl; rewrite ?Hx; auto.
Qed.

Lemma find_forallb {A} (P f : A -> bool) l x :
  List.find f l = Some x -> forallb P l = true -> P x = true.
Proof.
  induction l as [|y l IH]; simpl; [done|].
  intros Hfind [Hy Hl]%andb_true_iff. destruct (f y).
  - by injection Hfind as <-.
  - by apply IH.
Qed.

Lemma join_texts blocks :
  Array_join "" (map (fun c => prop c "text") blocks)
  = String.concat "" (map partText blocks).
Proof.
  unfold Array_join. rewrite map_map. f_equal. apply map_ext. intros c.
  unfold partText. by destruct (prop c "text").
Qed.

Lemma or_else_text s : or_else (VStr s) (VStr "") = VStr s.
Proof.
  unfold or_else. simpl. destruct (String.eqb s "") eqn:E; [|done].
  by apply String.eqb_eq in E as ->.
Qed.

Lemma finish_reason_spec resp :
  (if strictEqStr (prop resp "status") "completed"
   then VStr "stop" else VStr "unknown")
  = VStr (finishReason resp).
Proof.
  unfold finishReason. destruct (prop resp "status"); try done. simpl.
  by destruct (String.eqb s "completed").
Qed.

Lemma counter_spec resp name :
  coalesce (optProp (prop resp "usage") name) (VNum 0) = counter resp name.
Proof.
  unfold counter, coalesce, optProp.
  destruct (prop resp "usage"); simpl; try done;
    by destruct (field props name).
Qed.

(** The text blocks the adapter collects. *)
Lemma text_blocks_spec output :
  forallb isObject output = true ->
  forallb contentOk output = true ->
  exists outputMsg,
    Array_find (typeIs "message") output = Ok outputMsg
    /\ (if nullish (optProp outputMsg "content") then Ok []
        else parts ← asArray "outputMsg?.content?.filter"
                       (optProp outputMsg "content");
             found ← Array_filter (typeIs "output_text") parts;
             Ok found)
       = Ok (textParts (firstMessage output))
    /\ forallb isObject (textParts (firstMessage output)) = true.
Proof.
  intros Hobj Hcontent. eexists. split; [by apply find_objects|].
  unfold firstMessage.
  destruct (List.find _ output) as [m|] eqn:Hfind; simpl; [|done].
  pose proof (find_forallb _ _ _ _ Hfind Hobj) as Hm.
  pose proof (find_forallb _ _ _ _ Hfind Hcontent) as Hc.
  destruct m as [| | | | | |ps]; try done. unfold contentOk in Hc.
  unfold optProp, textParts. cbn [nullish].
  destruct (prop (VObj ps) "content") as [| | | | |parts|]; try done.
  cbn [nullish asArray]. rewrite bind_Ok, filter_objects, bind_Ok by done.
  split; [done|]. by apply forallb_filter.
Qed.



End Adapter.

(** ** Early answers of the handlers *)

Section EarlyAnswers.
Import Routes Props Shapes.

(** A request whose model id is missing, or empty after redirection, is
    answered 400 on every route, before any outside call. *)
Theorem missing_model_is_400 (r : route) (cfg : Config) (w : World)
    (req : Request) :
  nullish (req_body req) = false ->
  truthy (resolvedId cfg req) = false ->
  serve r cfg w req
  = (ReplyJson 400 (VObj [("error", VStr "model is required")]), []).
Proof.
  unfold resolvedId. intros Hbody Hid.
  pattern (serve r cfg w req). apply serve_wp.
  unfold_route r; wp_run; tidy; (congruence || reflexivity).
Qed.

Lemma missing_model_is_400_witness :
  (nullish (req_body (Demo.request [("messages", VArr [Demo.hello])] []))
   = false
   /\ truthy (resolvedId (Demo.config "")
                (Demo.request [("messages", VArr [Demo.hello])] [])) = false)
  /\ serve Messages (Demo.config "")
       (Demo.world (Demo.upstream 200 "{}" (Ok (VObj []))))
       (Demo.request [("messages", VArr [Demo.hello])] [])
     = (ReplyJson 400 (VObj [("error", VStr "model is required")]), []).
Proof.
  split; [by split|].
  by apply (missing_model_is_400 Messages (Demo.config "")
              (Demo.world (Demo.upstream 200 "{}" (Ok (VObj []))))
              (Demo.request [("messages", VArr [Demo.hello])] [])).
Defined.

(** The three forwarding routes refuse a configured model of another family
    with a 400 that names the route, the model and its type, before any
    outside call. *)
Theorem wrong_family_is_400 (r : route) (cfg : Config) (w : World)
    (req : Request) (path only : string) :
  requiredType r = Some (path, only) ->
  nullish (req_body req) = false ->
  truthy (resolvedId cfg req) = true ->
  truthy (resolvedModel cfg req) = true ->
  strictEqStr (prop (resolvedModel cfg req) "type") only = false ->
  serve r cfg w req
  = (ReplyJson 400
       (VObj [("error", VStr "Invalid endpoint type");
              ("message",
               VStr (path ++ " endpoint only supports " ++ only
                       ++ " type endpoints, current model "
                       ++ toString (resolvedId cfg req) ++ " is "
                       ++ toString (prop (resolvedModel cfg req) "type")
                       ++ " type"))]),
     []).
Proof.
  unfold resolvedModel, resolvedId. intros Hreq Hbody Hid Hmodel Htype.
  pattern (serve r cfg w req). apply serve_wp.
  destruct r; try discriminate Hreq; injection Hreq as <- <-;
    unfold dispatch;
    [unfold handleDirectResponses | unfold handleDirectMessages
    | unfold handleCountTokens];
    wp_run; tidy; (congruence || reflexivity).
Qed.

Lemma wrong_family_is_400_witness :
  (requiredType Responses = Some ("/v1/responses", "openai")
   /\ truthy (resolvedModel (Demo.config "")
                (Demo.request [("model", VStr "opus")] [])) = true
   /\ strictEqStr
        (prop (resolvedModel (Demo.config "")
                 (Demo.request [("model", VStr "opus")] [])) "type")
        "openai" = false)
  /\ serve Responses (Demo.config "")
       (Demo.world (Demo.upstream 200 "{}" (Ok (VObj []))))
       (Demo.request [("model", VStr "opus")] [])
     = (ReplyJson 400
          (VObj [("error", VStr "Invalid endpoint type");
                 ("message",
                  VStr "/v1/responses endpoint only supports openai type endpoints, current model claude-high is anthropic type")]),
        []).
Proof.
  split; [by repeat split|].
  exact (wrong_family_is_400 Responses (Demo.config "")
           (Demo.world (Demo.upstream 200 "{}" (Ok (VObj []))))
           (Demo.request [("model", VStr "opus")] [])
           "/v1/responses" "openai" eq_refl eq_refl eq_refl eq_refl eq_refl).
Defined.

(** When credential resolution fails the client gets the fixed 500 answer
    about the API key, and the upstream is not called. *)
Theorem credential_failure_is_500 (r : route) (cfg : Config) (w : World)
    (req : Request) (clientAuth : value) (e : exn) :
  In (CallGetApiKey clientAuth) (snd (serve r cfg w req)) ->
  getApiKey w clientAuth = Throw e ->
  serve r cfg w req
  = (ReplyJson 500
       (VObj [("error", VStr "API key not available");
              ("message",
               VStr "Failed to get or refresh API key. Please check server logs.")]),
     [CallGetApiKey clientAuth]).
Proof.
  pattern (serve r cfg w req). apply serve_wp.
  unfold_route r; wp_run; leaf; (congruence || reflexivity).
Qed.

Lemma credential_failure_is_500_witness :
  (In (CallGetApiKey VUndefined)
     (snd (serve ChatCompletions (Demo.config "")
             (Demo.world (Demo.upstream 200 "{}" (Ok (VObj []))))
             (Demo.request
                [("model", VStr "glm-auto"); ("messages", VArr [Demo.hello])]
                [("x-api-key", "k1")])))
   /\ getApiKey (Demo.world (Demo.upstream 200 "{}" (Ok (VObj []))))
        VUndefined
      = Throw (Error "No authorization available"))
  /\ serve ChatCompletions (Demo.config "")
       (Demo.world (Demo.upstream 200 "{}" (Ok (VObj []))))
       (Demo.request
          [("model", VStr "glm-auto"); ("messages", VArr [Demo.hello])]
          [("x-api-key", "k1")])
     = (ReplyJson 500
          (VObj [("error", VStr "API key not available");
                 ("message",
                  VStr "Failed to get or refresh API key. Please check server logs.")]),
        [CallGetApiKey VUndefined]).
Proof.
  assert (Hin :
    In (CallGetApiKey VUndefined)
      (snd (serve ChatCompletions (Demo.config "")
              (Demo.world (Demo.upstream 200 "{}" (Ok (VObj []))))
              (Demo.request
                 [("model", VStr "glm-auto");
                  ("messages", VArr [Demo.hello])]
                 [("x-api-key", "k1")])))).
  { vm_compute. left. reflexivity. }
  split; [by split|].
  exact (credential_failure_is_500 ChatCompletions (Demo.config "")
           (Demo.world (Demo.upstream 200 "{}" (Ok (VObj []))))
           (Demo.request
              [("model", VStr "glm-auto"); ("messages", VArr [Demo.hello])]
              [("x-api-key", "k1")])
           VUndefined (Error "No authorization available") Hin eq_refl).
Defined.

Lemma serve_trace (r : route) (cfg : Config) (w : World) (req : Request) :
  disciplined w (snd (serve r cfg w req)).
Proof.
  pattern (serve r cfg w req). apply serve_wp.
  unfold_route r; wp_run; cbn [snd app]; unfold disciplined;
    solve [ by left
          | right; left; by eexists
          | right; right; by eexists _, _, _, _ ].
Qed.

(** Every request makes at most one credential lookup and at most one
    upstream call, in that order; the upstream is called only after the
    lookup succeeded, and always with POST. *)
Theorem calls_are_disciplined (r : route) (cfg : Config) (w : World)
    (req : Request) :
  disciplined w (snd (serve r cfg w req)).
Proof. exact (serve_trace r cfg w req). Qed.

(** A failed upstream call (the fetch itself throws) is answered with the
    generic 500 carrying the error's message. *)
Theorem network_failure_is_500 (r : route) (cfg : Config) (w : World)
    (req : Request) (url : value) (options : FetchOptions) (e : exn) :
  In (CallFetch url options) (snd (serve r cfg w req)) ->
  fetch w url options = Throw e ->
  fst (serve r cfg w req)
  = ReplyJson 500 (VObj [("error", VStr "Internal server error");
                         ("message", VStr (exn_message e))]).
Proof.
  pattern (serve r cfg w req). apply serve_wp.
  unfold_route r; wp_run; leaf; congruence.
Qed.

End EarlyAnswers.

(** ** What reaches the upstream, and what comes back *)

Section Forwarding.
Import Routes Props Shapes.

Lemma stripPrefix_Some pre s rest :
  stripPrefix pre s = Some rest -> s = pre ++ rest.
Proof.
  revert s. induction pre as [|a pre IH]; intros [|b s]; simpl; try done.
  - by intros [= <-].
  - by intros [= <-].
  - destruct (Ascii.eqb a b) eqn:E; [|done].
    apply Ascii.eqb_eq in E as ->. intros H%IH. rewrite H at 1. reflexivity.
Qed.

Lemma replaceFirst_absent pat rep s :
  includesSub pat s = false -> replaceFirst pat rep s = s.
Proof.
  induction s as [|c s IH]; simpl.
  - by destruct (stripPrefix pat "").
  - destruct (stripPrefix pat (String c s)); [done|].
    intros H. by rewrite IH.
Qed.

Lemma replaceFirst_present pat rep s :
  includesSub pat s = true ->
  exists before after,
    s = before ++ pat ++ after
    /\ replaceFirst pat rep s = before ++ rep ++ after.
Proof.
  induction s as [|c s IH]; simpl.
  - destruct (stripPrefix pat "") as [rest|] eqn:E; [|done].
    intros _. exists "", rest. split; [|done].
    by apply stripPrefix_Some in E.
  - destruct (stripPrefix pat (String c s)) as [rest|] eqn:E.
    + intros _. exists "", rest. split; [|done].
      by apply stripPrefix_Some in E.
    + intros (before & after & -> & ->)%IH.
      by exists (String c before), after.
Qed.

(** The body sent upstream carries the model id after redirection, on the
    three forwarding routes and, for a common-type model, on
    /v1/chat/completions. *)
Theorem outbound_model_is_redirected (r : route) (cfg : Config) (w : World)
    (req : Request) (url : value) (options : FetchOptions) :
  In (CallFetch url options) (snd (serve r cfg w req)) ->
  (r = ChatCompletions ->
   strictEqStr (prop (resolvedModel cfg req) "type") "common" = true) ->
  prop (fo_body options) "model" = resolvedId cfg req.
Proof.
  intros Hin Hcommon.
  pose proof (outbound_body r cfg w req url options Hin) as Hbody.
  destruct r.
  - specialize (Hbody (Hcommon eq_refl)).
    destruct (common_shape _ _ _ Hbody) as (injected & Hinj & ->).
    unfold prop at 1, field. rewrite lookupProp_withLevel_ne by done.
    destruct Hinj as [-> | [messages ->]]; simpl spread;
      try (rewrite lookupProp_setProp_ne by done);
      by rewrite lookupProp_setProp_eq.
  - rewrite Hbody. cbn [prop]. unfold field.
    enough (lookupProp
              (DirectResponses.modifiedRequest cfg (req_body req)
                 (resolvedId cfg req)) "model"
            = Some (resolvedId cfg req)) as -> by done.
    unfold DirectResponses.modifiedRequest.
    repeat case_match; try done;
      try (rewrite lookupProp_setProp_ne by done);
      try (rewrite lookupProp_deleteProp_ne by done);
      try (rewrite lookupProp_setProp_ne by done);
      apply lookupProp_setProp_eq.
  - rewrite Hbody. cbn [prop]. unfold field.
    enough (lookupProp
              (DirectMessages.modifiedRequest cfg (req_body req)
                 (resolvedId cfg req)) "model"
            = Some (resolvedId cfg req)) as -> by done.
    unfold DirectMessages.modifiedRequest.
    repeat case_match; try done;
      try (rewrite lookupProp_setProp_ne by done);
      try (rewrite lookupProp_deleteProp_ne by done);
      try (rewrite lookupProp_setProp_ne by done);
      apply lookupProp_setProp_eq.
  - rewrite Hbody. apply prop_redirected.
Qed.




(** On /v1/chat/completions the answer of a model that is not of the openai
    type is passed on as it came: the parsed document on the whole-body
    path, and for a common-type model the upstream's chunks on the
    streaming path. *)
Theorem other_families_are_passed_on (cfg : Config) (w : World)
    (req : Request) (url : value) (options : FetchOptions)
    (response : Response) :
  In (CallFetch url options) (snd (serve ChatCompletions cfg w req)) ->
  fetch w url options = Ok response ->
  ok response = true ->
  strictEqStr (prop (resolvedModel cfg req) "type") "openai" = false ->
  nullish (fo_body options) = false ->
  (strictEqTrue (prop (fo_body options) "stream") = false ->
   forall data,
     json response = Ok data ->
     fst (serve ChatCompletions cfg w req) = ReplyJson 200 data)
  /\ (strictEqStr (prop (resolvedModel cfg req) "type") "common" = true ->
      strictEqTrue (prop (fo_body options) "stream") = true ->
      fst (serve ChatCompletions cfg w req)
      = ReplyStream sseHeaders (body response)).
Proof.
  unfold resolvedModel, resolvedId.
  pattern (serve ChatCompletions cfg w req). apply serve_wp.
  unfold dispatch, handleChatCompletions.
  wp_run; leaf; cbn [fo_body] in *; try congruence;
    (split; intros; congruence).
Qed.

Lemma other_families_are_passed_on_witness :
  (In (CallFetch (VStr "https://upstream.test/anthropic/v1/messages")
         {| fo_method := "POST";
            fo_headers := VObj [("authorization", VStr "Bearer client")];
            fo_body := VObj [("model", VStr "claude-auto");
                             ("messages", VArr [Demo.hello])];
            fo_agent := None |})
      (snd (serve ChatCompletions (Demo.config "")
              (Demo.world
                 (Demo.upstream 200 "{}" (Ok (VObj [("type", VStr "message")]))))
              (Demo.request
                 [("model", VStr "claude-auto");
                  ("messages", VArr [Demo.hello])]
                 [("authorization", "Bearer client")])))
   /\ strictEqStr
        (prop (resolvedModel (Demo.config "")
                 (Demo.request
                    [("model", VStr "claude-auto");
                     ("messages", VArr [Demo.hello])]
                    [("authorization", "Bearer client")])) "type")
        "openai" = false)
  /\ fst (serve ChatCompletions (Demo.config "")
            (Demo.world
               (Demo.upstream 200 "{}" (Ok (VObj [("type", VStr "message")]))))
            (Demo.request
               [("model", VStr "claude-auto");
                ("messages", VArr [Demo.hello])]
               [("authorization", "Bearer client")]))
     = ReplyJson 200 (VObj [("type", VStr "message")]).
Proof.
  assert (Hin :
    In (CallFetch (VStr "https://upstream.test/anthropic/v1/messages")
          {| fo_method := "POST";
             fo_headers := VObj [("authorization", VStr "Bearer client")];
             fo_body := VObj [("model", VStr "claude-auto");
                              ("messages", VArr [Demo.hello])];
             fo_agent := None |})
       (snd (serve ChatCompletions (Demo.config "")
               (Demo.world
                  (Demo.upstream 200 "{}"
                     (Ok (VObj [("type", VStr "message")]))))
               (Demo.request
                  [("model", VStr "claude-auto");
                   ("messages", VArr [Demo.hello])]
                  [("authorization", "Bearer client")])))).
  { vm_compute. right. left. reflexivity. }
  split; [by split|].
  exact (proj1
           (other_families_are_passed_on (Demo.config "")
              (Demo.world
                 (Demo.upstream 200 "{}"
                    (Ok (VObj [("type", VStr "message")]))))
              (Demo.request
                 [("model", VStr "claude-auto");
                  ("messages", VArr [Demo.hello])]
                 [("authorization", "Bearer client")])
              _ _
              (Demo.upstream 200 "{}" (Ok (VObj [("type", VStr "message")])))
              Hin eq_refl eq_refl eq_refl eq_refl)
           eq_refl (VObj [("type", VStr "message")]) eq_refl).
Defined.

(** A model whose type is none of anthropic, openai and common, but for
    which an endpoint is configured, is refused with a 500 on
    /v1/chat/completions only after the credential was resolved; the
    upstream is not called. *)
Theorem unknown_family_is_500 (cfg : Config) (w : World) (req : Request)
    (key : value) :
  nullish (req_body req) = false ->
  truthy (resolvedId cfg req) = true ->
  truthy (resolvedModel cfg req) = true ->
  truthy (getEndpointByType cfg (prop (resolvedModel cfg req) "type")) = true ->
  getApiKey w (header req "authorization") = Ok key ->
  strictEqStr (prop (resolvedModel cfg req) "type") "anthropic" = false ->
  strictEqStr (prop (resolvedModel cfg req) "type") "openai" = false ->
  strictEqStr (prop (resolvedModel cfg req) "type") "common" = false ->
  serve ChatCompletions cfg w req
  = (ReplyJson 500
       (VObj [("error",
               VStr ("Unknown endpoint type: "
                       ++ toString (prop (resolvedModel cfg req) "type")))]),
     [CallGetApiKey (header req "authorization")]).
Proof.
  unfold resolvedModel, resolvedId. intros.
  pattern (serve ChatCompletions cfg w req). apply serve_wp.
  unfold dispatch, handleChatCompletions.
  wp_run; tidy; (congruence || reflexivity).
Qed.

Lemma unknown_family_is_500_witness :
  (truthy (getEndpointByType Cases.odd
             (prop (resolvedModel Cases.odd
                      (Demo.request [("model", VStr "titan")]
                         [("authorization", "Bearer client")])) "type"))
   = true
   /\ strictEqStr
        (prop (resolvedModel Cases.odd
                 (Demo.request [("model", VStr "titan")]
                    [("authorization", "Bearer client")])) "type")
        "common" = false)
  /\ serve ChatCompletions Cases.odd
       (Demo.world (Demo.upstream 200 "{}" (Ok (VObj []))))
       (Demo.request [("model", VStr "titan")]
          [("authorization", "Bearer client")])
     = (ReplyJson 500
          (VObj [("error", VStr "Unknown endpoint type: bedrock")]),
        [CallGetApiKey (VStr "Bearer client")]).
Proof.
  split; [by split|].
  assert (Hkey :
    getApiKey (Demo.world (Demo.upstream 200 "{}" (Ok (VObj []))))
      (header (Demo.request [("model", VStr "titan")]
                 [("authorization", "Bearer client")]) "authorization")
    = Ok (VStr "Bearer client")).
  { vm_compute. reflexivity. }
  assert (Hauth :
    header (Demo.request [("model", VStr "titan")]
              [("authorization", "Bearer client")]) "authorization"
    = VStr "Bearer client").
  { vm_compute. reflexivity. }
  rewrite <- Hauth.
  exact (unknown_family_is_500 Cases.odd
           (Demo.world (Demo.upstream 200 "{}" (Ok (VObj []))))
           (Demo.request [("model", VStr "titan")]
              [("authorization", "Bearer client")])
           (VStr "Bearer client")
           eq_refl eq_refl eq_refl eq_refl Hkey eq_refl eq_refl eq_refl).
Defined.

End Forwarding.

(** ** The Common transformer: where it applies and what it keeps *)

Section CommonDomain.
Import Routes Props Shapes.
Context (cfg : Config).

Lemma visit_Ok_nonnull prompt items msg index out :
  Common.visit prompt items msg index = Ok out -> nullish msg = false.
Proof. unfold Common.visit, getProp. by destruct (nullish msg). Qed.

Lemma map_visit_nonnull prompt items seg i out :
  map_from (Common.visit prompt items) i seg = Ok out ->
  forallb (fun m => negb (nullish m)) seg = true.
Proof.
  revert i out. induction seg as [|x seg IH]; intros i out; [done|].
  rewrite map_from_cons.
  destruct (Common.visit prompt items x i) as [y|e] eqn:Hx; [|done].
  rewrite bind_Ok.
  destruct (map_from (Common.visit prompt items) (i + 1) seg) as [ys|e] eqn:Hs;
    [|done].
  intros _. simpl. apply visit_Ok_nonnull in Hx as ->. simpl.
  exact (IH _ _ Hs).
Qed.

Lemma some_false_nonnull items :
  Array_some Common.isSystem items = Ok false ->
  forallb (fun m => negb (nullish m)) items = true.
Proof.
  induction items as [|x items IH]; [done|].
  change (Array_some Common.isSystem (x :: items))
    with (b ← Common.isSystem x;
          if b : bool then Ok true else Array_some Common.isSystem items).
  destruct (nullish x) eqn:Hx.
  - unfold Common.isSystem, getProp. by rewrite Hx.
  - rewrite isSystem_ok, bind_Ok by done. simpl forallb. rewrite Hx.
    destruct (hasRole "system" x); [done|]. apply IH.
Qed.

Lemma common_Ok_walkable req out :
  getSystemPrompt cfg <> "" ->
  Common.transformToCommon cfg req = Ok out ->
  walkable (field (spread req) "messages") = true.
Proof.
  intros Hprompt. unfold Common.transformToCommon.
  assert (truthy (VStr (getSystemPrompt cfg)) = true) as ->.
  { simpl. apply negb_true_iff. by apply String.eqb_neq. }
  destruct (field (spread req) "messages") as [| | | | |items|] eqn:Hm;
    try done; try (by simpl).
  cbn [mbind result_bind nullish asArray walkable].
  destruct (Array_some Common.isSystem items) as [[|]|e] eqn:Hsome;
    cbn [mbind result_bind]; [| |done].
  - destruct (Array_map (Common.visit (getSystemPrompt cfg) items) items)
      as [mapped|e] eqn:Hmap; cbn [mbind result_bind]; [|done].
    intros _. by apply map_visit_nonnull in Hmap.
  - intros _. by apply some_false_nonnull.
Qed.


Lemma find_app_none {A} (f : A -> bool) pre l :
  existsb f pre = false -> List.find f (pre ++ l)%list = List.find f l.
Proof.
  induction pre as [|x pre IH]; simpl; [done|].
  intros [-> H]%orb_false_iff. by apply IH.
Qed.

Lemma injectMessages_first_system prompt messages :
  exists first rest,
    List.find (hasRole "system") (injectMessages prompt messages) = Some first
    /\ prop first "content" = VStr (prompt ++ rest).
Proof.
  destruct messages as [| | | | |items|];
    try (exists (systemMessage prompt), ""; simpl;
         by rewrite append_empty_r).
  simpl. destruct (existsb (hasRole "system") items) eqn:Hsome.
  - destruct (split_first_system _ Hsome) as (pre & m & post & -> & Hpre & Hm).
    rewrite prependToFirstSystem_split, find_app_none by done.
    by eexists _, _.
  - exists (systemMessage prompt), "". simpl. by rewrite append_empty_r.
Qed.

Lemma prependToFirstSystem_length prompt items :
  length (prependToFirstSystem prompt items) = length items.
Proof.
  induction items as [|m items IH]; simpl; [done|].
  destruct (hasRole "system" m); simpl; by rewrite ?IH.
Qed.

(** With a prompt configured, the messages that leave the transformer
    always have a system message, the first of them starts with the prompt,
    and there is one message more than the client sent exactly when the
    client sent no system message. *)
Theorem prompt_leads_the_system_messages (req : value) :
  getSystemPrompt cfg <> "" ->
  nullish req = false ->
  walkable (field (spread req) "messages") = true ->
  exists body messages first rest,
    Common.transformToCommon cfg req = Ok (VObj body)
    /\ lookupProp body "messages" = Some (VArr messages)
    /\ List.find (hasRole "system") messages = Some first
    /\ prop first "content" = VStr (getSystemPrompt cfg ++ rest)
    /\ length messages
       = (length (messagesOf req)
          + if existsb (hasRole "system") (messagesOf req) then 0 else 1)%nat.
Proof.
  intros Hprompt Hreq Hwalk.
  destruct (injectMessages_first_system (getSystemPrompt cfg)
              (field (spread req) "messages")) as (first & rest & Hfind & Hc).
  eexists _, _, first, rest. split; [by apply common_injects|].
  split; [|split; [exact Hfind|split; [exact Hc|]]].
  - rewrite lookupProp_withLevel_ne by done. apply lookupProp_setProp_eq.
  - unfold messagesOf.
    destruct (field (spread req) "messages") as [| | | | |items|]; try done.
    simpl. destruct (existsb (hasRole "system") items).
    + rewrite prependToFirstSystem_length. lia.
    + simpl. lia.
Qed.

End CommonDomain.

Section CommonDomainExample.
Import Routes Props Shapes.

Lemma prompt_leads_the_system_messages_witness :
  (getSystemPrompt (Demo.config Demo.prompt) <> ""
   /\ walkable
        (field (spread (VObj [("model", VStr "glm-auto");
                              ("messages",
                               VArr [Demo.hello; systemMessage "Be terse."])]))
           "messages") = true)
  /\ exists body messages first rest,
       Common.transformToCommon (Demo.config Demo.prompt)
         (VObj [("model", VStr "glm-auto");
                ("messages", VArr [Demo.hello; systemMessage "Be terse."])])
       = Ok (VObj body)
       /\ lookupProp body "messages" = Some (VArr messages)
       /\ List.find (hasRole "system") messages = Some first
       /\ prop first "content"
          = VStr (getSystemPrompt (Demo.config Demo.prompt) ++ rest)
       /\ length messages = 2%nat.
Proof.
  assert (Hp : getSystemPrompt (Demo.config Demo.prompt) <> "")
    by discriminate.
  split; [by split|].
  exact (prompt_leads_the_system_messages (Demo.config Demo.prompt)
           (VObj [("model", VStr "glm-auto");
                  ("messages", VArr [Demo.hello; systemMessage "Be terse."])])
           Hp eq_refl eq_refl).
Defined.


End CommonDomainExample.

(** ** The fields a body builder leaves alone *)

Section Untouched.
Import Routes Props Shapes.

Lemma without_setProp keys ps k v :
  existsb (String.eqb k) keys = true ->
  without keys (setProp ps k v) = without keys ps.
Proof.
  intros Hk. unfold without.
  induction ps as [|[k' v'] ps IH]; simpl.
  - by rewrite Hk.
  - destruct (String.eqb k' k) eqn:E; simpl.
    + apply String.eqb_eq in E as ->. by rewrite Hk.
    + by rewrite IH.
Qed.

Lemma without_deleteProp keys ps k :
  existsb (String.eqb k) keys = true ->
  without keys (deleteProp ps k) = without keys ps.
Proof.
  intros Hk. unfold without.
  induction ps as [|[k' v'] ps IH]; simpl; [done|].
  destruct (String.eqb k' k) eqn:E; simpl.
  - apply String.eqb_eq in E as ->. by rewrite Hk.
  - by rewrite IH.
Qed.

(** Whatever the level and the prompt, each builder changes at most three
    fields (two for the Common transformer): every entry under another key
    is forwarded as the client sent it, and these entries keep their
    order. *)
Theorem other_fields_are_untouched (cfg : Config) (req modelId : value) :
  without ["model"; "system"; "thinking"]
    (DirectMessages.modifiedRequest cfg req modelId)
  = without ["model"; "system"; "thinking"] (spread req)
  /\ without ["model"; "instructions"; "reasoning"]
       (DirectResponses.modifiedRequest cfg req modelId)
     = without ["model"; "instructions"; "reasoning"] (spread req)
  /\ forall out,
       Common.transformToCommon cfg req = Ok out ->
       exists body,
         out = VObj body
         /\ without ["messages"; "reasoning_effort"] body
            = without ["messages"; "reasoning_effort"] (spread req).
Proof.
  split; [|split].
  - unfold DirectMessages.modifiedRequest.
    repeat case_match;
      by rewrite ?without_setProp, ?without_deleteProp, ?without_setProp,
           ?without_setProp.
  - unfold DirectResponses.modifiedRequest.
    repeat case_match;
      by rewrite ?without_setProp, ?without_deleteProp, ?without_setProp,
           ?without_setProp.
  - intros out (injected & Hinj & ->)%common_shape. eexists. split; [done|].
    unfold withLevel.
    destruct Hinj as [-> | [messages ->]]; repeat case_match;
      by rewrite ?without_setProp, ?without_deleteProp, ?without_setProp.
Qed.

End Untouched.

(** ** Requests that never leave the gateway *)

Section NeverForwarded.
Import Routes Props Shapes.



Lemma network_failure_is_500_witness :
  In (CallFetch (VStr "https://upstream.test/openai/v1/messages")
        {| fo_method := "POST";
           fo_headers := VObj [("authorization", VStr "Bearer client")];
           fo_body := VObj [("model", VStr "gpt-auto")];
           fo_agent := None |})
     (snd (serve Responses (Demo.config "")
             (Cases.offline (Error "connect ECONNREFUSED"))
             (Demo.request [("model", VStr "gpt-auto")]
                [("authorization", "Bearer client")])))
  /\ fst (serve Responses (Demo.config "")
            (Cases.offline (Error "connect ECONNREFUSED"))
            (Demo.request [("model", VStr "gpt-auto")]
               [("authorization", "Bearer client")]))
     = ReplyJson 500 (VObj [("error", VStr "Internal server error");
                            ("message", VStr "connect ECONNREFUSED")]).
Proof.
  assert (Hin :
    In (CallFetch (VStr "https://upstream.test/openai/v1/messages")
          {| fo_method := "POST";
             fo_headers := VObj [("authorization", VStr "Bearer client")];
             fo_body := VObj [("model", VStr "gpt-auto")];
             fo_agent := None |})
       (snd (serve Responses (Demo.config "")
               (Cases.offline (Error "connect ECONNREFUSED"))
               (Demo.request [("model", VStr "gpt-auto")]
                  [("authorization", "Bearer client")])))).
  { vm_compute. right. left. reflexivity. }
  split; [exact Hin|].
  exact (network_failure_is_500 Responses (Demo.config "")
           (Cases.offline (Error "connect ECONNREFUSED"))
           (Demo.request [("model", VStr "gpt-auto")]
              [("authorization", "Bearer client")])
           _ _ (Error "connect ECONNREFUSED") Hin eq_refl).
Defined.

Lemma outbound_model_is_redirected_witness :
  In (CallFetch (VStr "https://upstream.test/anthropic/v1/messages")
        {| fo_method := "POST";
           fo_headers := VObj [("authorization", VStr "Bearer client")];
           fo_body := VObj [("model", VStr "claude-high");
                            ("messages", VArr [Demo.hello]);
                            ("thinking",
                             VObj [("type", VStr "enabled");
                                   ("budget_tokens", VNum 24576)])];
           fo_agent := None |})
     (snd (serve Messages (Demo.config "")
             (Demo.world (Demo.upstream 200 "{}" (Ok (VObj []))))
             (Demo.request
                [("model", VStr "opus"); ("messages", VArr [Demo.hello])]
                [("authorization", "Bearer client")])))
  /\ prop (VObj [("model", VStr "claude-high");
                 ("messages", VArr [Demo.hello]);
                 ("thinking",
                  VObj [("type", VStr "enabled");
                        ("budget_tokens", VNum 24576)])]) "model"
     = resolvedId (Demo.config "")
         (Demo.request
            [("model", VStr "opus"); ("messages", VArr [Demo.hello])]
            [("authorization", "Bearer client")]).
Proof.
  assert (Hin :
    In (CallFetch (VStr "https://upstream.test/anthropic/v1/messages")
          {| fo_method := "POST";
             fo_headers := VObj [("authorization", VStr "Bearer client")];
             fo_body := VObj [("model", VStr "claude-high");
                              ("messages", VArr [Demo.hello]);
                              ("thinking",
                               VObj [("type", VStr "enabled");
                                     ("budget_tokens", VNum 24576)])];
             fo_agent := None |})
       (snd (serve Messages (Demo.config "")
               (Demo.world (Demo.upstream 200 "{}" (Ok (VObj []))))
               (Demo.request
                  [("model", VStr "opus"); ("messages", VArr [Demo.hello])]
                  [("authorization", "Bearer client")])))).
  { vm_compute. right. left. reflexivity. }
  split; [exact Hin|].
  apply (outbound_model_is_redirected Messages (Demo.config "")
           (Demo.world (Demo.upstream 200 "{}" (Ok (VObj []))))
           (Demo.request
              [("model", VStr "opus"); ("messages", VArr [Demo.hello])]
              [("authorization", "Bearer client")])
           _ _ Hin).
  discriminate.
Defined.

End NeverForwarded.

(** ** The adapter: where it applies, and its defaults *)

Section AdapterDomain.
Import Routes Props Shapes.

Lemma typeIs_nonnull lit o :
  nullish o = false -> typeIs lit o = Ok (strictEqStr (prop o "type") lit).
Proof. intros H. unfold typeIs, getProp. by rewrite H. Qed.

Lemma typeIs_null lit o : nullish o = true -> isOk (typeIs lit o) = false.
Proof. intros H. unfold typeIs, getProp. by rewrite H. Qed.

(** The search for the message item succeeds exactly when no null entry
    comes before the item it stops at. *)
Lemma find_stage output :
  match Array_find (typeIs "message") output with
  | Ok m => upToMessage output = contentWalk m
  | Throw _ => upToMessage output = false
  end.
Proof.
  induction output as [|o output IH]; [done|].
  cbn [Array_find upToMessage].
  destruct (nullish o) eqn:Ho.
  - unfold typeIs, getProp. by rewrite Ho.
  - rewrite typeIs_nonnull, bind_Ok by done. cbn [negb andb].
    destruct (strictEqStr (prop o "type") "message"); [|exact IH].
    unfold contentWalk, optProp. by rewrite Ho.
Qed.

Lemma filter_stage lit parts :
  match Array_filter (typeIs lit) parts with
  | Ok found =>
      forallb (fun c => negb (nullish c)) parts = true
      /\ forallb (fun c => negb (nullish c)) found = true
  | Throw _ => forallb (fun c => negb (nullish c)) parts = false
  end.
Proof.
  induction parts as [|c parts IH]; [done|].
  cbn [Array_filter forallb].
  destruct (nullish c) eqn:Hc.
  - unfold typeIs, getProp. by rewrite Hc.
  - rewrite typeIs_nonnull, bind_Ok by done. cbn [negb andb].
    destruct (Array_filter (typeIs lit) parts) as [found|e]; [|exact IH].
    rewrite bind_Ok. destruct IH as [IH1 IH2]. split; [done|].
    destruct (strictEqStr (prop c "type") lit); [|done].
    simpl. by rewrite Hc.
Qed.

Lemma content_stage m :
  match (if nullish (optProp m "content") then Ok []
         else parts ← asArray "outputMsg?.content?.filter"
                        (optProp m "content");
              found ← Array_filter (typeIs "output_text") parts;
              Ok found)
  with
  | Ok found =>
      contentWalk m = true
      /\ forallb (fun c => negb (nullish c)) found = true
  | Throw _ => contentWalk m = false
  end.
Proof.
  unfold contentWalk.
  destruct (optProp m "content") as [| | | | |parts|]; try done.
  cbn [nullish asArray]. rewrite bind_Ok.
  pose proof (filter_stage "output_text" parts) as H.
  destruct (Array_filter (typeIs "output_text") parts); [|done].
  by rewrite bind_Ok.
Qed.

Lemma texts_stage blocks i :
  forallb (fun c => negb (nullish c)) blocks = true ->
  map_from (fun c _ => getProp c "text") i blocks
  = Ok (map (fun c => prop c "text") blocks).
Proof.
  revert i. induction blocks as [|c blocks IH]; intros i; [done|].
  cbn [forallb]. intros [Hc Hrest]%andb_true_iff.
  apply negb_true_iff in Hc. rewrite map_from_cons. cbn beta.
  assert (getProp c "text" = Ok (prop c "text")) as ->
    by (unfold getProp; by rewrite Hc).
  by rewrite bind_Ok, IH.
Qed.



Lemma filter_keeps {A} (P f : A -> bool) l :
  forallb P l = true -> forallb P (List.filter f l) = true.
Proof.
  induction l as [|x l IH]; simpl; [done|].
  intros [Hx Hl]%andb_true_iff. destruct (f x); simpl; rewrite ?Hx; auto.
Qed.

(** The whole completion built from a well-formed body. *)
Lemma adapter_result (clock : list Z) (resp : value) :
  wellFormed resp = true ->
  convertResponseToChatCompletion clock resp
  = Ok (VObj
          [("id", VStr (syntheticId clock resp));
           ("object", VStr "chat.completion");
           ("created", createdOf clock resp);
           ("model", or_else (prop resp "model") (VStr "unknown-model"));
           ("choices",
            VArr
              [VObj
                 [("index", VNum 0);
                  ("message",
                   VObj [("role", roleOf (firstMessage (outputOf resp)));
                         ("content",
                          VStr (String.concat ""
                                  (map partText
                                     (textParts
                                        (firstMessage (outputOf resp))))))]);
                  ("finish_reason", VStr (finishReason resp))]]);
           ("usage",
            VObj [("prompt_tokens", counter resp "input_tokens");
                  ("completion_tokens", counter resp "output_tokens");
                  ("total_tokens", counter resp "total_tokens")])]).
Proof.
  intros Hwf. unfold wellFormed in Hwf.
  apply andb_true_iff in Hwf as [[Hobj Hout]%andb_true_iff Hid].
  destruct resp as [| | | | | |ps]; try done.
  unfold convertResponseToChatCompletion. cbn [truthy typeofObject negb orb].
  assert (Hblocks : exists output,
    asArray "(resp.output || []).find"
      (or_else (prop (VObj ps) "output") (VArr [])) = Ok output
    /\ output = outputOf (VObj ps)
    /\ forallb isObject output = true
    /\ forallb contentOk output = true).
  { unfold outputOf.
    destruct (prop (VObj ps) "output") as [| | | | |items|]; try done.
    - by exists [].
    - by exists [].
    - apply andb_true_iff in Hout as [Ho Hc]. by exists items. }
  destruct Hblocks as (output & Harr & -> & Ho & Hc).
  rewrite Harr, bind_Ok, find_objects, bind_Ok by done.
  fold (firstMessage (outputOf (VObj ps))).
  assert (Hparts :
    (if nullish (optProp (default VUndefined (firstMessage (outputOf (VObj ps))))
                   "content")
     then Ok []
     else parts ← asArray "outputMsg?.content?.filter"
                    (optProp (default VUndefined
                                (firstMessage (outputOf (VObj ps))))
                       "content");
          found ← Array_filter (typeIs "output_text") parts;
          Ok found)
    = Ok (textParts (firstMessage (outputOf (VObj ps))))
    /\ forallb isObject (textParts (firstMessage (outputOf (VObj ps)))) = true
    /\ or_else (optProp (default VUndefined
                           (firstMessage (outputOf (VObj ps)))) "role")
         (VStr "assistant")
       = roleOf (firstMessage (outputOf (VObj ps)))).
  { unfold firstMessage.
    destruct (List.find _ (outputOf (VObj ps))) as [m|] eqn:Hfind; [|done].
    pose proof (find_forallb _ _ _ _ Hfind Ho) as Hm.
    pose proof (find_forallb _ _ _ _ Hfind Hc) as Hcm.
    destruct m as [| | | | | |ms]; try done. unfold contentOk in Hcm.
    cbn [default id from_option]. unfold optProp, textParts, roleOf.
    cbn [nullish].
    destruct (prop (VObj ms) "content") as [| | | | |parts|]; try done.
    cbn [nullish asArray]. rewrite bind_Ok, filter_objects, bind_Ok by done.
    split; [done|]. split; [|done].
    exact (filter_keeps isObject _ parts Hcm). }
  destruct Hparts as (-> & Hobjs & ->). rewrite bind_Ok.
  unfold Array_map. rewrite texts_of_objects, bind_Ok by done.
  rewrite join_texts, or_else_text, finish_reason_spec, !counter_spec.
  unfold syntheticId, createdOf.
  destruct (prop (VObj ps) "id") as [| | | |s| |]; try done.
  cbn [truthy]. by rewrite Hid, bind_Ok.
Qed.

Lemma stripPrefix_app pre x : stripPrefix pre (pre ++ x) = Some x.
Proof.
  induction pre as [|a pre IH]; [by destruct x|].
  change (String a pre ++ x) with (String a (pre ++ x)).
  cbn [stripPrefix]. by rewrite Ascii.eqb_refl.
Qed.





End AdapterDomain.

(** ** Generated ids and the Common header set *)

Section CommonHeaders.
Import Routes Props Shapes.

Lemma hexDigit_is_hex r :
  0 <= r < 16 -> isHexDigit (Common.hexDigit r) = true.
Proof.
  intros Hr.
  assert (r = 0 \/ r = 1 \/ r = 2 \/ r = 3 \/ r = 4 \/ r = 5 \/ r = 6 \/ r = 7
          \/ r = 8 \/ r = 9 \/ r = 10 \/ r = 11 \/ r = 12 \/ r = 13 \/ r = 14
          \/ r = 15) as H by lia.
  repeat (destruct H as [-> | H]; [reflexivity|]). by subst.
Qed.

Lemma variant_digit r :
  existsb (Ascii.eqb (Common.hexDigit (Z.lor (Z.land r 3) 8)))
    (list_ascii_of_string "89ab") = true.
Proof.
  change 3 with (Z.ones 2). rewrite Z.land_ones by lia.
  assert (r mod 2 ^ 2 = 0 \/ r mod 2 ^ 2 = 1 \/ r mod 2 ^ 2 = 2
          \/ r mod 2 ^ 2 = 3) as H.
  { pose proof (Z.mod_pos_bound r (2 ^ 2)). lia. }
  destruct H as [-> | [-> | [-> | ->]]]; reflexivity.
Qed.

Lemma fillTemplate_slots template draws :
  Forall (fun r => 0 <= r < 16) draws ->
  Forall2 slotOk (list_ascii_of_string template)
    (list_ascii_of_string (Common.fillTemplate template draws)).
Proof.
  revert draws. induction template as [|c template IH]; intros draws Hdraws;
    [constructor|].
  assert (Hhd : 0 <= hd 0 draws < 16).
  { destruct Hdraws; simpl; [lia|done]. }
  assert (Htl : Forall (fun r => 0 <= r < 16) (tl draws)).
  { destruct Hdraws; simpl; [constructor|done]. }
  cbn [Common.fillTemplate list_ascii_of_string].
  destruct (Ascii.eqb c "x") eqn:Hx; cbn [orb].
  - cbn [list_ascii_of_string]. constructor; [|by apply IH].
    unfold slotOk. rewrite Hx. by apply hexDigit_is_hex.
  - destruct (Ascii.eqb c "y") eqn:Hy.
    + cbn [list_ascii_of_string]. constructor; [|by apply IH].
      unfold slotOk. rewrite Hx, Hy. apply variant_digit.
    + cbn [list_ascii_of_string]. constructor; [|by apply IH].
      unfold slotOk. by rewrite Hx, Hy.
Qed.

(** A generated id follows its template place by place: a lower-case hex
    digit for every [x], one of 8, 9, a, b for the [y], and the dashes and
    the version digit 4 where the template has them; it has 36 characters. *)
Theorem generated_uuid_shape (draws : list Z) :
  Forall (fun r => 0 <= r < 16) draws ->
  Forall2 slotOk
    (list_ascii_of_string "xxxxxxxx-xxxx-4xxx-yxxx-xxxxxxxxxxxx")
    (list_ascii_of_string (Common.generateUUID draws))
  /\ String.length (Common.generateUUID draws) = 36%nat.
Proof.
  intros Hdraws. split; [by apply fillTemplate_slots|]. reflexivity.
Qed.

Lemma generated_uuid_shape_witness :
  Forall (fun r => 0 <= r < 16) [1; 2; 3; 15; 0; 7]
  /\ Forall2 slotOk
       (list_ascii_of_string "xxxxxxxx-xxxx-4xxx-yxxx-xxxxxxxxxxxx")
       (list_ascii_of_string (Common.generateUUID [1; 2; 3; 15; 0; 7])).
Proof.
  assert (H : Forall (fun r => 0 <= r < 16) [1; 2; 3; 15; 0; 7])
    by (repeat constructor; lia).
  split; [exact H|]. exact (proj1 (generated_uuid_shape _ H)).
Defined.

Lemma header_clientOr clientHeaders name fallback :
  or_else (Common.header clientHeaders name) fallback
  = clientOr clientHeaders name fallback.
Proof.
  unfold or_else, Common.header, clientOr.
  destruct (clientHeaders !! name) as [s|]; [|done]. simpl.
  by destruct (String.eqb s "").
Qed.

(** The header set of a Common call, in closed form. *)
Lemma common_headers_closed (cfg : Config) (sessionDraws messageDraws : list Z)
    (authHeader : value) (clientHeaders : gmap string string)
    (provider : value) :
  Common.getCommonHeaders cfg sessionDraws messageDraws authHeader
    clientHeaders provider
  = VObj
      [("accept", VStr "application/json");
       ("content-type", VStr "application/json");
       ("authorization", or_else authHeader (VStr ""));
       ("x-api-provider",
        match provider with VUndefined => VStr "baseten" | _ => provider end);
       ("x-factory-client", VStr "cli");
       ("x-session-id",
        clientOr clientHeaders "x-session-id"
          (VStr (Common.generateUUID sessionDraws)));
       ("x-assistant-message-id",
        clientOr clientHeaders "x-assistant-message-id"
          (VStr (Common.generateUUID messageDraws)));
       ("user-agent", VStr (getUserAgent cfg));
       ("connection", VStr "keep-alive");
       ("x-stainless-arch",
        clientOr clientHeaders "x-stainless-arch" (VStr "x64"));
       ("x-stainless-lang",
        clientOr clientHeaders "x-stainless-lang" (VStr "js"));
       ("x-stainless-os",
        clientOr clientHeaders "x-stainless-os" (VStr "MacOS"));
       ("x-stainless-runtime",
        clientOr clientHeaders "x-stainless-runtime" (VStr "node"));
       ("x-stainless-retry-count",
        clientOr clientHeaders "x-stainless-retry-count" (VStr "0"));
       ("x-stainless-package-version",
        clientOr clientHeaders "x-stainless-package-version" (VStr "5.23.2"));
       ("x-stainless-runtime-version",
        clientOr clientHeaders "x-stainless-runtime-version"
          (VStr "v24.3.0"))].
Proof.
  unfold Common.getCommonHeaders. rewrite !header_clientOr.
  unfold Common.stainlessDefaults.
  cbn [fold_left fst snd setProp String.eqb Ascii.eqb Bool.eqb].
  by rewrite !header_clientOr.
Qed.

(** The Common header set depends on the client's headers through nine of
    them only: the session and message ids and the seven SDK markers.  Any
    other client header (authorization, x-api-key, user-agent, cookies) is
    neither forwarded nor able to change a forwarded one, and the set of
    header names sent is always the same sixteen. *)
Theorem common_headers_ignore_other_client_headers (cfg : Config)
    (sessionDraws messageDraws : list Z) (authHeader provider : value)
    (clientHeaders clientHeaders' : gmap string string) :
  (forall name,
     In name ["x-session-id"; "x-assistant-message-id"; "x-stainless-arch";
              "x-stainless-lang"; "x-stainless-os"; "x-stainless-runtime";
              "x-stainless-retry-count"; "x-stainless-package-version";
              "x-stainless-runtime-version"] ->
     clientHeaders !! name = clientHeaders' !! name) ->
  Common.getCommonHeaders cfg sessionDraws messageDraws authHeader
    clientHeaders provider
  = Common.getCommonHeaders cfg sessionDraws messageDraws authHeader
      clientHeaders' provider
  /\ map fst (spread (Common.getCommonHeaders cfg sessionDraws messageDraws
                        authHeader clientHeaders provider))
     = commonHeaderNames.
Proof.
  intros Hsame. rewrite !common_headers_closed. split; [|reflexivity].
  unfold clientOr.
  rewrite !Hsame by (simpl; tauto). reflexivity.
Qed.

(** What a Common call sends for the credential and the ids: the resolved
    credential (an empty string when there is none), the fixed client
    marker, the client's own session and message ids when it sent non-empty
    ones, and generated ids otherwise. *)
Theorem common_headers_credential_and_ids (cfg : Config)
    (sessionDraws messageDraws : list Z) (authHeader provider : value)
    (clientHeaders : gmap string string) :
  let headers :=
    spread (Common.getCommonHeaders cfg sessionDraws messageDraws authHeader
              clientHeaders provider) in
  lookupProp headers "authorization" = Some (or_else authHeader (VStr ""))
  /\ lookupProp headers "x-factory-client" = Some (VStr "cli")
  /\ (forall id,
        clientHeaders !! "x-session-id" = Some id -> id <> "" ->
        lookupProp headers "x-session-id" = Some (VStr id))
  /\ (clientHeaders !! "x-session-id" = None
      \/ clientHeaders !! "x-session-id" = Some "" ->
      lookupProp headers "x-session-id"
      = Some (VStr (Common.generateUUID sessionDraws)))
  /\ (forall id,
        clientHeaders !! "x-assistant-message-id" = Some id -> id <> "" ->
        lookupProp headers "x-assistant-message-id" = Some (VStr id))
  /\ (clientHeaders !! "x-assistant-message-id" = None
      \/ clientHeaders !! "x-assistant-message-id" = Some "" ->
      lookupProp headers "x-assistant-message-id"
      = Some (VStr (Common.generateUUID messageDraws))).
Proof.
  cbv zeta. rewrite common_headers_closed. cbn [spread].
  cbn [lookupProp String.eqb Ascii.eqb Bool.eqb]. unfold clientOr.
  repeat split.
  - intros id -> Hid. by apply String.eqb_neq in Hid as ->.
  - by intros [-> | ->].
  - intros id -> Hid. by apply String.eqb_neq in Hid as ->.
  - by intros [-> | ->].
Qed.


Lemma common_headers_ignore_other_client_headers_witness :
  (forall name,
     In name ["x-session-id"; "x-assistant-message-id"; "x-stainless-arch";
              "x-stainless-lang"; "x-stainless-os"; "x-stainless-runtime";
              "x-stainless-retry-count"; "x-stainless-package-version";
              "x-stainless-runtime-version"] ->
     (list_to_map [("x-session-id", "s-1"); ("authorization", "Bearer mine");
                   ("x-factory-client", "web")] : gmap string string)
       !! name
     = (list_to_map [("x-session-id", "s-1"); ("cookie", "a=b")]
          : gmap string string) !! name)
  /\ Common.getCommonHeaders (Demo.config "") [] [] (VStr "Bearer key")
       (list_to_map [("x-session-id", "s-1"); ("authorization", "Bearer mine");
                     ("x-factory-client", "web")])
       (VStr "demo")
     = Common.getCommonHeaders (Demo.config "") [] [] (VStr "Bearer key")
         (list_to_map [("x-session-id", "s-1"); ("cookie", "a=b")])
         (VStr "demo").
Proof.
  assert (Hsame :
    forall name,
      In name ["x-session-id"; "x-assistant-message-id"; "x-stainless-arch";
               "x-stainless-lang"; "x-stainless-os"; "x-stainless-runtime";
               "x-stainless-retry-count"; "x-stainless-package-version";
               "x-stainless-runtime-version"] ->
      (list_to_map [("x-session-id", "s-1"); ("authorization", "Bearer mine");
                    ("x-factory-client", "web")] : gmap string string)
        !! name
      = (list_to_map [("x-session-id", "s-1"); ("cookie", "a=b")]
           : gmap string string) !! name).
  { intros name Hin. simpl in Hin.
    repeat (destruct Hin as [<- | Hin]; [vm_compute; reflexivity|]).
    destruct Hin. }
  split; [exact Hsame|].
  exact (proj1 (common_headers_ignore_other_client_headers (Demo.config "")
                  [] [] (VStr "Bearer key") (VStr "demo") _ _ Hsame)).
Defined.

End CommonHeaders.

(** ** The model listing *)

Section Listing.
Import Routes Props Shapes.

Lemma entry_ok clock m i :
  nullish m = false ->
  ModelList.entry clock m i
  = Ok (VObj [("id", prop m "id");
              ("object", VStr "model");
              ("created", VNum (nth (Z.to_nat i) clock 0));
              ("owned_by", prop m "type");
              ("permission", VArr []);
              ("root", prop m "id");
              ("parent", VNull)]).
Proof. intros H. unfold ModelList.entry, getProp. by rewrite H. Qed.

Lemma entries_of_models clock models i :
  forallb (fun m => negb (nullish m)) models = true ->
  exists data,
    map_from (ModelList.entry clock) i models = Ok data
    /\ length data = length models
    /\ forall (j : nat) m,
         models !! j = Some m ->
         data !! j
         = Some (VObj [("id", prop m "id");
                       ("object", VStr "model");
                       ("created",
                        VNum (nth (Z.to_nat (i + Z.of_nat j)) clock 0));
                       ("owned_by", prop m "type");
                       ("permission", VArr []);
                       ("root", prop m "id");
                       ("parent", VNull)]).
Proof.
  revert i. induction models as [|m models IH]; intros i Hnn.
  - by exists [].
  - cbn [forallb] in Hnn. apply andb_true_iff in Hnn as [Hm Hrest].
    apply negb_true_iff in Hm.
    destruct (IH (i + 1) Hrest) as (data & Hdata & Hlen & Hget).
    eexists. rewrite map_from_cons, entry_ok, bind_Ok, Hdata, bind_Ok by done.
    split; [reflexivity|]. split; [simpl; by rewrite Hlen|].
    intros [|j] m'.
    + intros [= <-]. simpl. by rewrite Z.add_0_r.
    + intros Hj. simpl in Hj |- *. rewrite (Hget j m' Hj).
      replace (i + 1 + Z.of_nat j) with (i + Z.pos (Pos.of_succ_nat j)) by lia.
      reflexivity.
Qed.

(** [GET /v1/models] lists the configured models one for one and in their
    order: each entry carries the model's id as [id] and [root], its type as
    [owned_by], and the clock reading taken for it as [created]. *)
Theorem models_are_listed_in_order (config : value) (clock : list Z)
    (models : list value) :
  prop config "models" = VArr models ->
  forallb (fun m => negb (nullish m)) models = true ->
  exists data,
    ModelList.listModels (Ok config) clock
    = ReplyJson 200 (VObj [("object", VStr "list"); ("data", VArr data)])
    /\ length data = length models
    /\ forall (j : nat) m,
         models !! j = Some m ->
         data !! j
         = Some (VObj [("id", prop m "id");
                       ("object", VStr "model");
                       ("created", VNum (nth j clock 0));
                       ("owned_by", prop m "type");
                       ("permission", VArr []);
                       ("root", prop m "id");
                       ("parent", VNull)]).
Proof.
  intros Hmodels Hnn.
  destruct (entries_of_models clock models 0 Hnn) as (data & Hdata & Hlen & Hget).
  exists data. split; [|split; [exact Hlen|]].
  - unfold ModelList.listModels. rewrite bind_Ok.
    assert (nullish config = false) as Hc by (by destruct config).
    unfold getProp. rewrite Hc, bind_Ok, Hmodels. cbn [nullish asArray].
    rewrite bind_Ok. unfold Array_map. by rewrite Hdata.
  - intros j m Hj. rewrite (Hget j m Hj). by rewrite Z.add_0_l, Nat2Z.id.
Qed.

Lemma models_are_listed_in_order_witness :
  (prop Cases.configJson "models"
   = VArr [VObj [("name", VStr "Claude Opus 4");
                 ("id", VStr "claude-opus-4-1-20250805");
                 ("type", VStr "anthropic");
                 ("reasoning", VStr "high")];
           VObj [("name", VStr "GPT-5");
                 ("id", VStr "gpt-5-2025-08-07");
                 ("type", VStr "openai");
                 ("reasoning", VStr "medium")]])
  /\ exists data,
       ModelList.listModels (Ok Cases.configJson) [1700000000123; 1700000000124]
       = ReplyJson 200 (VObj [("object", VStr "list"); ("data", VArr data)])
       /\ length data = 2%nat.
Proof.
  split; [reflexivity|].
  destruct (models_are_listed_in_order Cases.configJson
              [1700000000123; 1700000000124] _ eq_refl eq_refl)
    as (data & Hreply & Hlen & _).
  by exists data.
Defined.

(** When the configuration cannot be read, has no [models] array, or lists
    a null entry, the listing answers 500 with the bare error, without a
    message. *)
Theorem broken_registry_is_500 (getConfig : result value) (clock : list Z) :
  match getConfig with
  | Ok config =>
      match prop config "models" with
      | VArr models => forallb (fun m => negb (nullish m)) models
      | _ => false
      end
  | Throw _ => false
  end = false ->
  ModelList.listModels getConfig clock
  = ReplyJson 500 (VObj [("error", VStr "Internal server error")]).
Proof.
  unfold ModelList.listModels.
  destruct getConfig as [config|e]; [|done]. rewrite bind_Ok.
  unfold getProp at 1. destruct (nullish config) eqn:Hc; [done|].
  rewrite bind_Ok.
  destruct (prop config "models") as [| | | | |models|]; try done.
  cbn [nullish asArray]. rewrite bind_Ok. intros Hnull.
  enough (forall i, Shapes.isOk (map_from (ModelList.entry clock) i models)
                    = false) as H.
  { specialize (H 0). unfold Array_map.
    by destruct (map_from (ModelList.entry clock) 0 models). }
  clear Hc. induction models as [|m models IH]; [done|]. intros i.
  cbn [forallb] in Hnull. rewrite map_from_cons.
  destruct (nullish m) eqn:Hm.
  - unfold ModelList.entry, getProp. by rewrite Hm.
  - simpl in Hnull. specialize (IH Hnull (i + 1)).
    destruct (ModelList.entry clock m i); [|done]. rewrite bind_Ok.
    by destruct (map_from (ModelList.entry clock) (i + 1) models).
Qed.

Lemma broken_registry_is_500_witness :
  match Ok (VObj [("port", VNum 3000)]) with
  | Ok config =>
      match prop config "models" with
      | VArr models => forallb (fun m => negb (nullish m)) models
      | _ => false
      end
  | Throw _ => false
  end = false
  /\ ModelList.listModels (Ok (VObj [("port", VNum 3000)])) []
     = ReplyJson 500 (VObj [("error", VStr "Internal server error")]).
Proof.
  split; [reflexivity|].
  exact (broken_registry_is_500 (Ok (VObj [("port", VNum 3000)])) [] eq_refl).
Defined.

End Listing.

(** ** The middleware chain *)

Section Middleware.
Import Routes Props Shapes Server.

(** Every answer to a request whose body was parsed carries the three CORS
    headers, whichever handler gave it; the answer to a request whose body
    the parsers rejected carries none, has status 500, and shows the parser's
    message in development mode only. *)
Theorem cors_headers_everywhere (cfg : Config) (w : World) (x : Express)
    (req : HttpRequest) :
  match http_body req with
  | Ok _ => headersOf (fst (app cfg w x req)) = corsHeaders
  | Throw err =>
      app cfg w x req
      = (Answer []
           (ReplyJson 500
              (VObj [("error", VStr "Internal server error");
                     ("message",
                      if isDevMode x then VStr (exn_message err)
                      else VUndefined)])),
         [])
  end.
Proof.
  unfold app. destruct (http_body req); [|done].
  repeat case_match; done.
Qed.

(** A preflight request is answered by the CORS middleware alone, on any
    path; and whatever the request, outside calls are made by the four POST
    routes only, at most one credential lookup and one POST after it. *)
Theorem only_post_routes_call_out (cfg : Config) (w : World) (x : Express)
    (req : HttpRequest) :
  (forall body,
     http_body req = Ok body -> http_method req = "OPTIONS" ->
     app cfg w x req = (SendStatus corsHeaders 200, []))
  /\ disciplined w (snd (app cfg w x req))
  /\ (snd (app cfg w x req) <> [] ->
      http_method req <> "OPTIONS"
      /\ (matches x "post" "/v1/chat/completions" req = true
          \/ matches x "post" "/v1/responses" req = true
          \/ matches x "post" "/v1/messages" req = true
          \/ matches x "post" "/v1/messages/count_tokens" req = true)).
Proof.
  split; [|split].
  - intros body Hbody Hmethod. unfold app. by rewrite Hbody, Hmethod.
  - unfold app, routed. repeat case_match; cbn [snd];
      solve [by left | apply serve_trace].
  - unfold app, routed.
    destruct (http_body req); [|done].
    destruct (String.eqb (http_method req) "OPTIONS") eqn:Hm; [done|].
    apply String.eqb_neq in Hm.
    repeat case_match; cbn [snd]; intros Htrace; try done; split; auto.
Qed.

End Middleware.
